(** * Binance futures testnet bot: order validation, submission and the
      credential probe

    A shallow embedding of [src/trading_bot.py] ([BasicBot.test_connection],
    [BasicBot.place_order], the handlers of [main]) and of
    [src/test_credentials.py] ([test_api_credentials]).

    Python values are an inductive type [pyval]; a Python [float] is a
    binary64 number, here Rocq's primitive [float].  Exceptions are values of
    type [exn]; a computation that may raise returns a [result].  The bot's
    methods run in a state monad over a [machine]: the state of the outside
    world (exchange, clock) and the chronological list of what the program did
    to it (log records, console lines, calls of the exchange client).

    Strings are sequences of ASCII characters: [upper] maps a-z to A-Z and
    leaves every other character alone, [strip] removes the ASCII characters
    for which Python's [str.isspace] holds.  On text with a character outside
    ASCII these functions are not Python's ([str.upper] maps letters beyond
    a-z, [str.strip] removes further white space, [repr] keeps printable
    characters); a theorem whose conclusion depends on that difference
    assumes [Str.is_ascii] of the text. *)

From Stdlib Require Import ZArith List String Ascii Bool Lia Floats DecimalString.
Import ListNotations.

Set Warnings "-inexact-float,-register-all".
Open Scope string_scope.

(** ** Python strings *)

Module Str.

Definition upper_char (c : ascii) : ascii :=
  let n := nat_of_ascii c in
  if ((97 <=? n) && (n <=? 122))%nat then ascii_of_nat (n - 32) else c.

(** [s.upper()], for ASCII text *)
Fixpoint upper (s : string) : string :=
  match s with
  | EmptyString => EmptyString
  | String c s' => String (upper_char c) (upper s')
  end.

(** [c.isspace()] on an ASCII character: tab, line feed, vertical tab, form
    feed, carriage return, the four separators 0x1c-0x1f, and the space.
    (Python counts further characters outside ASCII as white space.) *)
Definition isspace (c : ascii) : bool :=
  let n := nat_of_ascii c in
  (((9 <=? n) && (n <=? 13)) || ((28 <=? n) && (n <=? 32)))%nat.

Fixpoint lstrip (s : string) : string :=
  match s with
  | EmptyString => EmptyString
  | String c s' => if isspace c then lstrip s' else s
  end.

Fixpoint rstrip (s : string) : string :=
  match s with
  | EmptyString => EmptyString
  | String c s' =>
      match rstrip s' with
      | EmptyString => if isspace c then EmptyString else String c EmptyString
      | t => String c t
      end
  end.

(** [s.strip()], for ASCII text *)
Definition strip (s : string) : string := rstrip (lstrip s).

(** [s.endswith(suffix)] *)
Definition endswith (s suffix : string) : bool :=
  let n := String.length s in
  let k := String.length suffix in
  ((k <=? n)%nat && String.eqb (substring (n - k) k s) suffix).

(** [repr(s)], for ASCII text: single quotes, unless [s] holds a single quote
    and no double quote; a backslash, the chosen quote, and the characters
    that are not printable are escaped. *)
Definition squote : ascii := ascii_of_nat 39.
Definition dquote : ascii := ascii_of_nat 34.

Fixpoint contains_char (c : ascii) (s : string) : bool :=
  match s with
  | EmptyString => false
  | String c' s' => Ascii.eqb c c' || contains_char c s'
  end.

Definition hex_digit (n : nat) : ascii :=
  ascii_of_nat (if (n <? 10)%nat then 48 + n else 87 + n).

Definition escape_char (quote c : ascii) : string :=
  let n := nat_of_ascii c in
  if (n =? 92)%nat then "\\"
  else if Ascii.eqb c quote then String "\" (String c EmptyString)
  else if (n =? 9)%nat then "\t"
  else if (n =? 10)%nat then "\n"
  else if (n =? 13)%nat then "\r"
  else if ((n <? 32) || (127 <=? n))%nat then
    String "\" (String "x" (String (hex_digit (n / 16))
                              (String (hex_digit (n mod 16)) EmptyString)))
  else String c EmptyString.

Fixpoint escape (quote : ascii) (s : string) : string :=
  match s with
  | EmptyString => EmptyString
  | String c s' => escape_char quote c ++ escape quote s'
  end.

Definition repr (s : string) : string :=
  let quote :=
    if contains_char squote s && negb (contains_char dquote s)
    then dquote else squote in
  String quote (escape quote s ++ String quote EmptyString).

(** [str(n)] for an integer [n]: its decimal digits, with a leading minus
    sign when negative. *)
Definition of_Z (z : Z) : string := NilZero.string_of_int (Z.to_int z).

(** Text of ASCII characters only (code points below 128): the text on which
    [upper], [isspace], [strip] and [repr] above are Python's. *)
Fixpoint is_ascii (s : string) : bool :=
  match s with
  | EmptyString => true
  | String c s' => (nat_of_ascii c <? 128)%nat && is_ascii s'
  end.

End Str.

(** ** Python values *)

(** The values the bot's arguments and the exchange's decoded JSON answers
    range over.  A [dict] keeps its keys in insertion order; its keys are
    strings. *)
Inductive pyval : Type :=
| PyNone
| PyBool (b : bool)
| PyInt (z : Z)
| PyFloat (f : float)
| PyStr (s : string)
| PyList (l : list pyval)
| PyDict (d : list (string * pyval)).

(** [type(v).__name__] *)
Definition type_name (v : pyval) : string :=
  match v with
  | PyNone => "NoneType"
  | PyBool _ => "bool"
  | PyInt _ => "int"
  | PyFloat _ => "float"
  | PyStr _ => "str"
  | PyList _ => "list"
  | PyDict _ => "dict"
  end.

(** [bool(v)] *)
Definition truthy (v : pyval) : bool :=
  match v with
  | PyNone => false
  | PyBool b => b
  | PyInt z => negb (z =? 0)%Z
  | PyFloat f => negb (PrimFloat.eqb f 0%float)
  | PyStr s => negb (String.eqb s "")
  | PyList l => match l with [] => false | _ => true end
  | PyDict d => match d with [] => false | _ => true end
  end.

(** ** Exceptions and results *)

(** The exception classes that occur.  All of them derive from [Exception];
    the interpreter's exit signals ([KeyboardInterrupt], [SystemExit]) are
    outside the model.  [OtherException name] is any further class deriving
    directly from [Exception] (the client library's request and transport
    errors). *)
Inductive exn_class : Type :=
| AttributeError
| TypeError
| ValueError
| OverflowError
| KeyError
| RuntimeError
| OtherException (name : string).

(** [BinanceAPIException] carries the attributes the bot reads,
    [e.status_code] and [e.message]; every other exception carries its class
    and [str(e)]. *)
Inductive exn : Type :=
| BinanceAPIException (status_code : Z) (message : string)
| PyExc (cls : exn_class) (msg : string).

Inductive result (A : Type) : Type :=
| Return (a : A)
| Raise (e : exn).
Arguments Return {A} a.
Arguments Raise {A} e.

Definition rbind {A B : Type} (r : result A) (k : A -> result B) : result B :=
  match r with
  | Return a => k a
  | Raise e => Raise e
  end.

Declare Scope result_scope.
Delimit Scope result_scope with result.
Notation "'let*' x ':=' r 'in' k" := (rbind r (fun x => k))
  (at level 10, x name, r at level 100, k at level 200) : result_scope.

(** [isinstance(e, cls)] for the classes above. *)
Definition exn_class_eqb (a b : exn_class) : bool :=
  match a, b with
  | AttributeError, AttributeError
  | TypeError, TypeError
  | ValueError, ValueError
  | OverflowError, OverflowError
  | KeyError, KeyError
  | RuntimeError, RuntimeError => true
  | OtherException n, OtherException n' => String.eqb n n'
  | _, _ => false
  end.

Definition is_instance (cls : exn_class) (e : exn) : bool :=
  match e with
  | BinanceAPIException _ _ => false
  | PyExc c _ => exn_class_eqb c cls
  end.

(** Does the computation end in an exception of class [cls]? *)
Definition raises {A : Type} (cls : exn_class) (r : result A) : bool :=
  match r with
  | Return _ => false
  | Raise e => is_instance cls e
  end.

(** ** Builtins on values *)

(** [v.upper().strip()]: only a [str] has the method [upper]. *)
Definition upper_strip (v : pyval) : result string :=
  match v with
  | PyStr s => Return (Str.strip (Str.upper s))
  | _ => Raise (PyExc AttributeError
                  ("'" ++ type_name v ++ "' object has no attribute 'upper'"))
  end.

(** [float(n)] for an integer: the nearest binary64 number, ties to even;
    [OverflowError] when that is not finite. *)
Definition float_of_Z (z : Z) : result float :=
  let f := SF2Prim (binary_normalize prec emax z 0 false) in
  if PrimFloat.is_infinity f
  then Raise (PyExc OverflowError "int too large to convert to float")
  else Return f.

(** [v[key]] for a string key. *)
Fixpoint dict_get (d : list (string * pyval)) (key : string) : option pyval :=
  match d with
  | [] => None
  | (k, v) :: d' => if String.eqb k key then Some v else dict_get d' key
  end.

Definition subscript (v : pyval) (key : string) : result pyval :=
  match v with
  | PyDict d =>
      match dict_get d key with
      | Some x => Return x
      | None => Raise (PyExc KeyError ("'" ++ key ++ "'"))
      end
  | PyList _ =>
      Raise (PyExc TypeError "list indices must be integers or slices, not str")
  | PyStr _ =>
      Raise (PyExc TypeError "string indices must be integers, not 'str'")
  | _ =>
      Raise (PyExc TypeError
               ("'" ++ type_name v ++ "' object is not subscriptable"))
  end.

(** [d[key] = v]: replaces the value of a key that is present, appends a new
    key at the end. *)
Fixpoint dict_set (d : list (string * pyval)) (key : string) (v : pyval)
  : list (string * pyval) :=
  match d with
  | [] => [(key, v)]
  | (k, x) :: d' =>
      if String.eqb k key then (k, v) :: d' else (k, x) :: dict_set d' key v
  end.

(** [key in d] *)
Definition dict_has (d : list (string * pyval)) (key : string) : bool :=
  match dict_get d key with Some _ => true | None => false end.

(** [iter(v)]: the items a [for] loop over [v] visits. *)
Fixpoint chars (s : string) : list pyval :=
  match s with
  | EmptyString => []
  | String c s' => PyStr (String c EmptyString) :: chars s'
  end.

Definition iterate (v : pyval) : result (list pyval) :=
  match v with
  | PyList l => Return l
  | PyDict d => Return (map (fun kv => PyStr (fst kv)) d)
  | PyStr s => Return (chars s)
  | _ => Raise (PyExc TypeError
                  ("'" ++ type_name v ++ "' object is not iterable"))
  end.

(** [v == 'text'] *)
Definition eq_str (v : pyval) (text : string) : bool :=
  match v with
  | PyStr s => String.eqb s text
  | _ => false
  end.

(** [next((item for item in balance if item['asset'] == asset), None)]: the
    first item whose asset is [asset], [None] when there is none; an item
    that cannot be subscripted raises when the search reaches it. *)
Fixpoint first_with_asset (items : list pyval) (asset : string)
  : result pyval :=
  match items with
  | [] => Return PyNone
  | item :: rest =>
      (let* a := subscript item "asset" in
       if eq_str a asset then Return item else first_with_asset rest asset)%result
  end.

Definition find_balance (balance : pyval) (asset : string) : result pyval :=
  (let* items := iterate balance in first_with_asset items asset)%result.

(** ** The outside world and the machine *)

Inductive level : Type := INFO | WARNING | ERROR.

(** An argument of a log record or of a console line: a value, or [str(e)]
    of an exception.  Records keep the format string of the source and the
    arguments; rendering them is the logging library's work. *)
Inductive fmtarg : Type :=
| Val (v : pyval)
| StrOf (e : exn).

(** The calls of the exchange client ([binance.Client]). *)
Inductive api_call : Type :=
| Client (api_key api_secret : string) (testnet : bool) (tld : option string)
| futures_ping
| futures_time
| futures_account
| futures_account_balance
| futures_create_order (params : list (string * pyval)).

Inductive event : Type :=
| Log (lvl : level) (fmt : string) (args : list fmtarg)
| Print (fmt : string) (args : list fmtarg)
| Call (c : api_call).

(** What the program does not define: the interpreter's parsing of a float
    literal, the platform's clock and calendar, and the exchange behind the
    client library.  [W] is the state of that world; a call may change it and
    either answers with a decoded JSON value or raises.
    - [float_of_string s] is [float(s)] for a [str], [None] where Python
      raises [ValueError];
    - [human_time v] is
      [time.strftime('%Y-%m-%d %H:%M:%S', time.gmtime(v/1000))];
    - [time_time] is [time.time()]. *)
Class Platform (W : Type) : Type := {
  float_of_string : string -> option float;
  human_time : pyval -> result string;
  time_time : W -> float * W;
  exchange : api_call -> W -> result pyval * W
}.

Record machine (W : Type) : Type := Machine {
  world : W;
  trace : list event
}.
Arguments Machine {W} world trace.
Arguments world {W} m.
Arguments trace {W} m.

(** The orders sent to the exchange, in order. *)
Fixpoint sent_orders (t : list event) : list (list (string * pyval)) :=
  match t with
  | [] => []
  | Call (futures_create_order params) :: t' => params :: sent_orders t'
  | _ :: t' => sent_orders t'
  end.

(** The calls of the client, in order. *)
Fixpoint calls (t : list event) : list api_call :=
  match t with
  | [] => []
  | Call c :: t' => c :: calls t'
  | _ :: t' => calls t'
  end.

(** The records logged at a level, in order. *)
Definition is_log (lvl : level) (ev : event) : bool :=
  match ev, lvl with
  | Log INFO _ _, INFO | Log WARNING _ _, WARNING | Log ERROR _ _, ERROR => true
  | _, _ => false
  end.

Definition logged (lvl : level) (t : list event) : list event :=
  filter (is_log lvl) t.

(** What a run that started in [m] and ended in [m'] added to the trace. *)
Definition events_since {W : Type} (m m' : machine W) : list event :=
  skipn (List.length (trace m)) (trace m').

(** ** The monad of the bot's methods *)

Definition M (W A : Type) : Type := machine W -> result A * machine W.

Definition ret {W A : Type} (a : A) : M W A := fun m => (Return a, m).

Definition raise {W A : Type} (e : exn) : M W A := fun m => (Raise e, m).

Definition bind {W A B : Type} (c : M W A) (k : A -> M W B) : M W B :=
  fun m =>
    match c m with
    | (Return a, m') => k a m'
    | (Raise e, m') => (Raise e, m')
    end.

(** A pure step that may raise. *)
Definition lift {W A : Type} (r : result A) : M W A := fun m => (r, m).

(** [try: body except ... as e: handler e]; every exception of the model
    derives from [Exception], so the handler sees each of them, in the machine
    the body left. *)
Definition try_except {W A : Type} (body : M W A) (handler : exn -> M W A)
  : M W A :=
  fun m =>
    match body m with
    | (Return a, m') => (Return a, m')
    | (Raise e, m') => handler e m'
    end.

Definition emit {W : Type} (ev : event) : M W unit :=
  fun m => (Return tt, Machine (world m) (trace m ++ [ev])).

Declare Scope bot_scope.
Delimit Scope bot_scope with bot.
Notation "x <- c ;; k" := (bind c (fun x => k))
  (at level 61, c at next level, right associativity) : bot_scope.
Notation "c ;; k" := (bind c (fun _ => k))
  (at level 61, right associativity) : bot_scope.

Section Bot.

Context {W : Type} `{P : Platform W}.

Local Open Scope bot_scope.

(** [self.logger.info(fmt, *args)] and its siblings; [print(f"...")]. *)
Definition log (lvl : level) (fmt : string) (args : list fmtarg) : M W unit :=
  emit (Log lvl fmt args).

Definition print (fmt : string) (args : list fmtarg) : M W unit :=
  emit (Print fmt args).

(** A call of the client: recorded, then answered by the exchange. *)
Definition call (c : api_call) : M W pyval :=
  fun m =>
    let (r, w') := exchange c (world m) in
    (r, Machine w' (trace m ++ [Call c])).

(** [time.time()] *)
Definition now : M W float :=
  fun m => let (t, w') := time_time (world m) in (Return t, Machine w' (trace m)).

(** [float(v)] *)
Definition py_float (v : pyval) : result float :=
  match v with
  | PyFloat f => Return f
  | PyInt z => float_of_Z z
  | PyBool b => Return (if b then 1%float else 0%float)
  | PyStr s =>
    match float_of_string s with
    | Some f => Return f
    | None => Raise (PyExc ValueError
                       ("could not convert string to float: " ++ Str.repr s))
    end
  | _ => Raise (PyExc TypeError
                  ("float() argument must be a string or a real number, not '"
                     ++ type_name v ++ "'"))
  end.

(** *** [BasicBot.test_connection] (trading_bot.py, lines 40-74) *)

(** The [try] block, lines 43-67. *)
Definition test_connection_body : M W unit :=
  start_time <- now ;;
  call futures_ping ;;
  end_time <- now ;;
  let ping_time := ((end_time - start_time) * 1000)%float in
  server_time <- call futures_time ;;
  millis <- lift (subscript server_time "serverTime") ;;
  human <- lift (human_time millis) ;;
  log INFO "API Connection Successful | Ping: %.2fms" [Val (PyFloat ping_time)] ;;
  log INFO "Binance Server Time: %s UTC" [Val (PyStr human)] ;;
  account_info <- call futures_account ;;
  can_trade <- lift (subscript account_info "canTrade") ;;
  log INFO "Account Status: CanTrade=%s" [Val can_trade] ;;
  balance <- call futures_account_balance ;;
  usdt_balance <- lift (find_balance balance "USDT") ;;
  if truthy usdt_balance then
    amount <- lift (subscript usdt_balance "balance") ;;
    log INFO "Available Balance: %s USDT" [Val amount]
  else
    log WARNING "No USDT balance found" [].

(** The two [except] clauses, lines 69-74: log, then a bare [raise]. *)
Definition test_connection_except (e : exn) : M W unit :=
  match e with
  | BinanceAPIException status_code message =>
      log ERROR "API Error: %s - %s" [Val (PyInt status_code); Val (PyStr message)] ;;
      raise e
  | PyExc _ _ =>
      log ERROR "Connection test failed: %s" [StrOf e] ;;
      raise e
  end.

Definition test_connection : M W unit :=
  try_except test_connection_body test_connection_except.

(** *** [BasicBot.place_order] (trading_bot.py, lines 76-131) *)

(** The validation step, lines 82-117: the checks in the order of the
    source, then the request parameters.  It reads nothing of the machine. *)
Definition validate_order (symbol side order_type quantity price : pyval)
  : result (list (string * pyval)) :=
  (let* symbol := upper_strip symbol in
   if negb (Str.endswith symbol "USDT") then
     Raise (PyExc ValueError "Symbol must be a USDT-M pair (e.g., BTCUSDT)")
   else
   let* side := upper_strip side in
   if negb (existsb (String.eqb side) ["BUY"; "SELL"]) then
     Raise (PyExc ValueError "Side must be 'BUY' or 'SELL'")
   else
   let* quantity := py_float quantity in
   if PrimFloat.leb quantity 0 then
     Raise (PyExc ValueError "Quantity must be positive")
   else
   let* order_type := upper_strip order_type in
   let valid_types := ["MARKET"; "LIMIT"] in
   if negb (existsb (String.eqb order_type) valid_types) then
     Raise (PyExc ValueError "Order type must be MARKET or LIMIT")
   else
   let params := [("symbol", PyStr symbol);
                  ("side", PyStr side);
                  ("type", PyStr order_type);
                  ("quantity", PyFloat quantity)] in
   if String.eqb order_type "LIMIT" then
     match price with
     | PyNone => Raise (PyExc ValueError "Price is required for limit orders")
     | _ =>
         let* price := py_float price in
         if PrimFloat.leb price 0 then
           Raise (PyExc ValueError "Price must be positive")
         else
           let params := dict_set params "price" (PyFloat price) in
           let params := dict_set params "timeInForce" (PyStr "GTC") in
           Return params
     end
   else Return params)%result.

(** The first three rules one by one, for stating which rule an order
    breaks: each holds when the corresponding check of [validate_order] lets
    the value through. *)
Definition symbol_ok (symbol : pyval) : bool :=
  match upper_strip symbol with
  | Return s => Str.endswith s "USDT"
  | Raise _ => false
  end.

Definition side_ok (side : pyval) : bool :=
  match upper_strip side with
  | Return s => existsb (String.eqb s) ["BUY"; "SELL"]
  | Raise _ => false
  end.

Definition quantity_ok (quantity : pyval) : bool :=
  match py_float quantity with
  | Return q => negb (PrimFloat.leb q 0)
  | Raise _ => false
  end.

(** Lines 119-122: log, send, log, return the answer as it came. *)
Definition submit (params : list (string * pyval)) : M W pyval :=
  log INFO "Placing order: %s" [Val (PyDict params)] ;;
  response <- call (futures_create_order params) ;;
  log INFO "Order successful: %s" [Val response] ;;
  ret response.

(** The two [except] clauses, lines 124-131: build the message, log it,
    raise a fresh [RuntimeError] with it. *)
Definition place_order_except (e : exn) : M W pyval :=
  match e with
  | BinanceAPIException status_code message =>
      let error_msg := "API Error " ++ Str.of_Z status_code ++ ": " ++ message in
      log ERROR error_msg [] ;;
      raise (PyExc RuntimeError error_msg)
  | PyExc _ str_e =>
      let error_msg := "Order failed: " ++ str_e in
      log ERROR error_msg [] ;;
      raise (PyExc RuntimeError error_msg)
  end.

Definition place_order (symbol side order_type quantity price : pyval)
  : M W pyval :=
  try_except
    (params <- lift (validate_order symbol side order_type quantity price) ;;
     submit params)
    place_order_except.

(** *** The handlers of [main] (trading_bot.py, lines 197-206)

    What [main] does with an exception of its [try] block: the label it
    prints and the exit status. *)
Definition main_except (e : exn) : M W Z :=
  if is_instance ValueError e then
    print "\n[ERROR] Validation Error: {str(e)}" [StrOf e] ;;
    print "Use -h for help with command usage" [] ;;
    ret 1%Z
  else if is_instance RuntimeError e then
    print "\n[ERROR] Trading Error: {str(e)}" [StrOf e] ;;
    ret 1%Z
  else
    print "\n[ERROR] Unexpected Error: {str(e)}" [StrOf e] ;;
    ret 1%Z.

(** *** [test_api_credentials] (test_credentials.py, lines 6-51) *)

Definition test_api_credentials_body (api_key api_secret : string)
  : M W pyval :=
  print "Testing Binance API credentials..." [] ;;
  call (Client api_key api_secret true (Some "us")) ;;
  start_time <- now ;;
  call futures_ping ;;
  end_time <- now ;;
  let ping_time := ((end_time - start_time) * 1000)%float in
  print "[SUCCESS] API Connectivity: Working (Ping: {ping_time:.2f}ms)"
        [Val (PyFloat ping_time)] ;;
  server_time <- call futures_time ;;
  millis <- lift (subscript server_time "serverTime") ;;
  human <- lift (human_time millis) ;;
  print "[SUCCESS] Server Time: {human_time} UTC" [Val (PyStr human)] ;;
  account_info <- call futures_account ;;
  print "[SUCCESS] Account Information Received" [] ;;
  can_trade <- lift (subscript account_info "canTrade") ;;
  print "    Can Trade: {account_info['canTrade']}" [Val can_trade] ;;
  can_withdraw <- lift (subscript account_info "canWithdraw") ;;
  print "    Can Withdraw: {account_info['canWithdraw']}" [Val can_withdraw] ;;
  can_deposit <- lift (subscript account_info "canDeposit") ;;
  print "    Can Deposit: {account_info['canDeposit']}" [Val can_deposit] ;;
  balance <- call futures_account_balance ;;
  usdt_balance <- lift (find_balance balance "USDT") ;;
  (if truthy usdt_balance then
     amount <- lift (subscript usdt_balance "balance") ;;
     print "[SUCCESS] USDT Balance: {usdt_balance['balance']}" [Val amount]
   else
     print "[WARNING] No USDT balance found" []) ;;
  print "\n[SUCCESS] All tests passed! Credentials are valid." [] ;;
  ret (PyBool true).

(** [except Exception as e]: print, and answer [False]. *)
Definition test_api_credentials_except (e : exn) : M W pyval :=
  print "\n[ERROR] Credential Test Failed: {str(e)}" [StrOf e] ;;
  ret (PyBool false).

Definition test_api_credentials (api_key api_secret : string) : M W pyval :=
  try_except (test_api_credentials_body api_key api_secret)
             test_api_credentials_except.

End Bot.

(** ** A scripted platform

    A world for running the model on concrete scenarios: the exchange answers
    each call with the next entry of a script and raises a transport error
    once the script is used up; the clock stands still; [float] reads the few
    literals of the scenarios below. *)

Module Scripted.

Definition world : Type := list (result pyval).

Definition answer (c : api_call) (w : world) : result pyval * world :=
  match w with
  | [] => (Raise (PyExc (OtherException "ConnectionError") "connection refused"), [])
  | r :: w' => (r, w')
  end.

Definition literal (s : string) : option float :=
  if String.eqb s "0.001" then Some 0.001%float
  else if String.eqb s "2500" then Some 2500%float
  else if String.eqb s "-1" then Some (-1)%float
  else if String.eqb s "0" then Some 0%float
  else None.

Definition calendar (v : pyval) : result string :=
  match v with
  | PyInt _ | PyFloat _ | PyBool _ => Return "2024-01-01 00:00:00"
  | _ => Raise (PyExc TypeError
                  ("unsupported operand type(s) for /: '" ++ type_name v
                     ++ "' and 'int'"))
  end.

#[global] Instance platform : Platform world := {|
  float_of_string := literal;
  human_time := calendar;
  time_time := fun w => (0%float, w);
  exchange := answer
|}.

(** The machine at the start of a scenario. *)
Definition boot (script : world) : machine world := Machine script [].

(** Answers of a healthy testnet account. *)
Definition pong : result pyval := Return (PyDict []).
Definition clock : result pyval :=
  Return (PyDict [("serverTime", PyInt 1704067200000)]).
Definition account : result pyval :=
  Return (PyDict [("canTrade", PyBool true); ("canWithdraw", PyBool true);
                  ("canDeposit", PyBool true)]).
Definition balances_without_usdt : result pyval :=
  Return (PyList [PyDict [("asset", PyStr "BNB"); ("balance", PyStr "1.5")];
                  PyDict [("asset", PyStr "BTC"); ("balance", PyStr "0.2")]]).
Definition balances_with_usdt : result pyval :=
  Return (PyList [PyDict [("asset", PyStr "BNB"); ("balance", PyStr "1.5")];
                  PyDict [("asset", PyStr "USDT"); ("balance", PyStr "15000.0")]]).
Definition filled : result pyval :=
  Return (PyDict [("orderId", PyInt 42); ("status", PyStr "NEW")]).
Definition invalid_symbol : result pyval :=
  Raise (BinanceAPIException 400 "Invalid symbol.").
Definition timed_out : result pyval :=
  Raise (PyExc (OtherException "ReadTimeout") "read timed out").

End Scripted.

(** ** Running the model on concrete inputs *)

Example repr_plain : Str.repr "abc" = "'abc'".
Proof. reflexivity. Qed.

Example upper_strip_symbol : upper_strip (PyStr "  btcusdt ") = Return "BTCUSDT".
Proof. reflexivity. Qed.

Example endswith_short : Str.endswith "SDT" "USDT" = false.
Proof. reflexivity. Qed.

Example limit_sell_request :
  validate_order (PyStr "ETHUSDT") (PyStr "sell") (PyStr "limit")
                 (PyFloat 0.1) (PyInt 2500)
  = Return [("symbol", PyStr "ETHUSDT"); ("side", PyStr "SELL");
            ("type", PyStr "LIMIT"); ("quantity", PyFloat 0.1);
            ("price", PyFloat 2500); ("timeInForce", PyStr "GTC")].
Proof. reflexivity. Qed.

Example malformed_quantity :
  validate_order (PyStr "ETHUSDT") (PyStr "sell") (PyStr "market")
                 (PyStr "ten") PyNone
  = Raise (PyExc ValueError "could not convert string to float: 'ten'").
Proof. reflexivity. Qed.

Example nan_quantity_passes :
  validate_order (PyStr "ETHUSDT") (PyStr "sell") (PyStr "market")
                 (PyFloat nan) PyNone
  = Return [("symbol", PyStr "ETHUSDT"); ("side", PyStr "SELL");
            ("type", PyStr "MARKET"); ("quantity", PyFloat nan)].
Proof. reflexivity. Qed.

Example market_buy_run :
  place_order (PyStr "btcusdt") (PyStr "buy") (PyStr "market")
              (PyFloat 0.001) PyNone (Scripted.boot [Scripted.filled])
  = (Scripted.filled,
     Machine []
       [Log INFO "Placing order: %s"
            [Val (PyDict [("symbol", PyStr "BTCUSDT"); ("side", PyStr "BUY");
                          ("type", PyStr "MARKET"); ("quantity", PyFloat 0.001)])];
        Call (futures_create_order
                [("symbol", PyStr "BTCUSDT"); ("side", PyStr "BUY");
                 ("type", PyStr "MARKET"); ("quantity", PyFloat 0.001)]);
        Log INFO "Order successful: %s"
            [Val (PyDict [("orderId", PyInt 42); ("status", PyStr "NEW")])]]).
Proof. reflexivity. Qed.

(** ** Facts about strings and traces *)

Lemma upper_char_idempotent (c : ascii) :
  Str.upper_char (Str.upper_char c) = Str.upper_char c.
Proof.
  destruct c as [[] [] [] [] [] [] [] []]; reflexivity.
Qed.

Lemma upper_idempotent (s : string) : Str.upper (Str.upper s) = Str.upper s.
Proof.
  induction s as [|c s IH]; simpl.
  - reflexivity.
  - now rewrite upper_char_idempotent, IH.
Qed.

Lemma upper_strip_upper (s : string) :
  upper_strip (PyStr (Str.upper s)) = upper_strip (PyStr s).
Proof.
  unfold upper_strip. now rewrite upper_idempotent.
Qed.

Lemma events_since_app {W : Type} (m : machine W) (w : W) (l : list event) :
  events_since m (Machine w (trace m ++ l)) = l.
Proof.
  unfold events_since; simpl.
  rewrite skipn_app, skipn_all, Nat.sub_diag. reflexivity.
Qed.

Lemma events_since_same {W : Type} (m : machine W) (w : W) :
  events_since m (Machine w (trace m)) = [].
Proof.
  unfold events_since; simpl. apply skipn_all.
Qed.

(** The first item of a list of balances none of which is in [asset]. *)
Definition other_asset (asset : string) (item : pyval) : Prop :=
  exists a, subscript item "asset" = Return a /\ eq_str a asset = false.

Lemma first_with_asset_absent (asset : string) (items : list pyval) :
  Forall (other_asset asset) items ->
  first_with_asset items asset = Return PyNone.
Proof.
  induction 1 as [|item rest [a [Ha Hne]] _ IH]; simpl.
  - reflexivity.
  - rewrite Ha. simpl. rewrite Hne. exact IH.
Qed.

(** A search that ends without a match has met no item in [asset], and a
    match is an item of the list that is in [asset]. *)
Lemma first_with_asset_found (asset : string) (items : list pyval) (v : pyval) :
  first_with_asset items asset = Return v ->
  v = PyNone \/ (In v items /\ exists a, subscript v "asset" = Return a
                                         /\ eq_str a asset = true).
Proof.
  induction items as [|item rest IH]; simpl.
  - intros [= <-]. now left.
  - destruct (subscript item "asset") as [a|e] eqn:Ha; simpl; [|discriminate].
    destruct (eq_str a asset) eqn:Heq.
    + intros [= <-]. right. split; [now left|]. now exists a.
    + intros H. destruct (IH H) as [->|[Hin Hx]]; [now left|].
      right. split; [now right|exact Hx].
Qed.

(** ** Facts about [place_order] *)

(** One step through the checks of [validate_order], on the equation [H]
    that says what it returned. *)
Ltac validation_step H :=
  match type of H with
  | rbind ?r _ = _ =>
      let E := fresh "E" in destruct r eqn:E; cbn [rbind] in H
  | (if ?b then _ else _) = _ =>
      let E := fresh "E" in
      destruct b eqn:E; try solve [cbv in E; discriminate E]
  | match ?p with _ => _ end = _ =>
      let E := fresh "E" in destruct p eqn:E
  | Raise _ = Raise _ => injection H as <-
  | Return _ = Return _ => injection H as <-
  | Return _ = Raise _ => discriminate H
  | Raise _ = Return _ => discriminate H
  end.

(** Running [validate_order] forward with what the context knows about its
    checks. *)
Ltac run_validation :=
  unfold validate_order;
  repeat first
    [ progress cbn [rbind negb upper_strip]
    | match goal with
      | H : ?x = _ |- context [?x] => rewrite H
      end
    | match goal with
      | |- context [if ?b then _ else _] =>
          let v := eval cbv in b in
          match v with
          | true => change b with true
          | false => change b with false
          end
      end ].

Section PlaceOrderFacts.

Context {W : Type} `{P : Platform W}.

Implicit Types (m : machine W) (symbol side order_type quantity price : pyval).

Lemma place_order_rejected symbol side order_type quantity price e m :
  validate_order symbol side order_type quantity price = Raise e ->
  place_order symbol side order_type quantity price m = place_order_except e m.
Proof.
  intros H. unfold place_order, try_except, bind, lift. now rewrite H.
Qed.

Lemma place_order_accepted symbol side order_type quantity price params m :
  validate_order symbol side order_type quantity price = Return params ->
  place_order symbol side order_type quantity price m
  = try_except (submit params) place_order_except m.
Proof.
  intros H. unfold place_order, try_except, bind, lift. now rewrite H.
Qed.

Lemma place_order_except_wraps cls str_e m :
  place_order_except (PyExc cls str_e) m
  = (Raise (PyExc RuntimeError ("Order failed: " ++ str_e)),
     Machine (world m) (trace m ++ [Log ERROR ("Order failed: " ++ str_e) []])).
Proof. reflexivity. Qed.

(** What a submission does, by the exchange's answer. *)
Lemma submit_run params m :
  try_except (submit params) place_order_except m
  = let (answer, w') := exchange (futures_create_order params) (world m) in
    let sent := [Log INFO "Placing order: %s" [Val (PyDict params)];
                 Call (futures_create_order params)] in
    match answer with
    | Return response =>
        (Return response,
         Machine w' (trace m ++ sent ++ [Log INFO "Order successful: %s" [Val response]]))
    | Raise (BinanceAPIException status_code message) =>
        let error_msg := "API Error " ++ Str.of_Z status_code ++ ": " ++ message in
        (Raise (PyExc RuntimeError error_msg),
         Machine w' (trace m ++ sent ++ [Log ERROR error_msg []]))
    | Raise (PyExc _ str_e) =>
        let error_msg := "Order failed: " ++ str_e in
        (Raise (PyExc RuntimeError error_msg),
         Machine w' (trace m ++ sent ++ [Log ERROR error_msg []]))
    end.
Proof.
  unfold try_except, submit, bind, log, emit, call, ret, place_order_except, raise.
  cbn [world trace].
  destruct (exchange (futures_create_order params) (world m))
    as [[response|[sc msg|cls msg]] w'];
    cbv beta iota delta [bind log emit raise ret world trace];
    rewrite <- !app_assoc; reflexivity.
Qed.

Lemma upper_strip_raises (v : pyval) e :
  upper_strip v = Raise e -> exists cls str_e, e = PyExc cls str_e.
Proof.
  destruct v; simpl; intros [= <-]; eauto.
Qed.

Lemma py_float_raises (v : pyval) e :
  py_float v = Raise e -> exists cls str_e, e = PyExc cls str_e.
Proof.
  destruct v as [| b | z | f | s | l | d]; simpl; try (intros [= <-]; eauto; fail).
  - unfold float_of_Z.
    destruct (PrimFloat.is_infinity _); intros [= <-]; eauto.
  - destruct (float_of_string s); intros [= <-]; eauto.
Qed.

(** The validation step raises builtin exceptions only. *)
Lemma validate_order_raises symbol side order_type quantity price e :
  validate_order symbol side order_type quantity price = Raise e ->
  exists cls str_e, e = PyExc cls str_e.
Proof.
  unfold validate_order. intros H.
  repeat validation_step H;
    eauto using upper_strip_raises, py_float_raises.
Qed.

(** The orders a run of [place_order] sends: the validated request, once, or
    none when validation rejects. *)
Lemma place_order_sends symbol side order_type quantity price m :
  sent_orders (events_since m
                 (snd (place_order symbol side order_type quantity price m)))
  = match validate_order symbol side order_type quantity price with
    | Return params => [params]
    | Raise _ => []
    end.
Proof.
  destruct (validate_order symbol side order_type quantity price)
    as [params|e] eqn:Hv.
  - rewrite (place_order_accepted _ _ _ _ _ _ _ Hv), submit_run.
    destruct (exchange (futures_create_order params) (world m))
      as [[response|[sc msg|cls msg]] w'];
      cbv zeta; cbn [snd]; rewrite events_since_app; reflexivity.
  - destruct (validate_order_raises _ _ _ _ _ _ Hv) as (cls & str_e & ->).
    rewrite (place_order_rejected _ _ _ _ _ _ _ Hv), place_order_except_wraps.
    cbn [snd]. rewrite events_since_app. reflexivity.
Qed.

(** A rejected order: the handler's [RuntimeError], one error record, the
    world as it was. *)
Lemma place_order_rejection symbol side order_type quantity price cls str_e m :
  validate_order symbol side order_type quantity price = Raise (PyExc cls str_e) ->
  place_order symbol side order_type quantity price m
  = (Raise (PyExc RuntimeError ("Order failed: " ++ str_e)),
     Machine (world m) (trace m ++ [Log ERROR ("Order failed: " ++ str_e) []])).
Proof.
  intros Hv. now rewrite (place_order_rejected _ _ _ _ _ _ _ Hv).
Qed.

(** C1 (amended): a symbol of ASCII text that, uppercased and trimmed, does
    not end with USDT is rejected by the validation step with a
    [ValueError]; the handler of [place_order] logs it and raises a
    [RuntimeError] carrying the message with the prefix "Order failed: ";
    that is what the caller receives, the world is untouched and the client
    is never called. *)
Theorem place_order_rejects_symbol (s : string) side order_type quantity price m :
  Str.is_ascii s = true ->
  Str.endswith (Str.strip (Str.upper s)) "USDT" = false ->
  validate_order (PyStr s) side order_type quantity price
  = Raise (PyExc ValueError "Symbol must be a USDT-M pair (e.g., BTCUSDT)")
  /\ place_order (PyStr s) side order_type quantity price m
     = (Raise (PyExc RuntimeError
                 "Order failed: Symbol must be a USDT-M pair (e.g., BTCUSDT)"),
        Machine (world m)
          (trace m ++
             [Log ERROR "Order failed: Symbol must be a USDT-M pair (e.g., BTCUSDT)" []]))
  /\ calls (events_since m
              (snd (place_order (PyStr s) side order_type quantity price m))) = [].
Proof.
  intros _ Hs.
  assert (Hv : validate_order (PyStr s) side order_type quantity price
               = Raise (PyExc ValueError "Symbol must be a USDT-M pair (e.g., BTCUSDT)")).
  { unfold validate_order. cbn [upper_strip rbind]. now rewrite Hs. }
  split; [exact Hv|].
  rewrite (place_order_rejection _ _ _ _ _ _ _ m Hv).
  split; [reflexivity|].
  cbn [snd]. now rewrite events_since_app.
Qed.

(** C2: once validation has accepted the order, a [BinanceAPIException] of the
    exchange is caught and raised again as a [RuntimeError] whose message
    holds its status code and message, and any other exception as a
    [RuntimeError] whose message is "Order failed: " and the original text;
    on both paths the message is logged at level ERROR before the raise. *)
Theorem place_order_translates_failures
    symbol side order_type quantity price params m e w' :
  validate_order symbol side order_type quantity price = Return params ->
  exchange (futures_create_order params) (world m) = (Raise e, w') ->
  place_order symbol side order_type quantity price m
  = (Raise (PyExc RuntimeError
              match e with
              | BinanceAPIException status_code message =>
                  "API Error " ++ Str.of_Z status_code ++ ": " ++ message
              | PyExc _ str_e => "Order failed: " ++ str_e
              end),
     Machine w'
       (trace m ++
          [Log INFO "Placing order: %s" [Val (PyDict params)];
           Call (futures_create_order params);
           Log ERROR
             match e with
             | BinanceAPIException status_code message =>
                 "API Error " ++ Str.of_Z status_code ++ ": " ++ message
             | PyExc _ str_e => "Order failed: " ++ str_e
             end []])).
Proof.
  intros Hv Hx.
  rewrite (place_order_accepted _ _ _ _ _ _ _ Hv), submit_run, Hx.
  destruct e as [status_code message|cls str_e]; reflexivity.
Qed.

(** An order that breaks a rule never gets its parameters built. *)
Lemma validate_limit_price_rejected symbol side (ot : string) quantity price :
  Str.strip (Str.upper ot) = "LIMIT" ->
  price = PyNone
  \/ (exists p, py_float price = Return p /\ PrimFloat.leb p 0 = true) ->
  exists cls str_e,
    validate_order symbol side (PyStr ot) quantity price = Raise (PyExc cls str_e).
Proof.
  intros Hot Hprice.
  destruct (validate_order symbol side (PyStr ot) quantity price)
    as [params|e] eqn:Hv.
  - exfalso. unfold validate_order in Hv.
    change (upper_strip (PyStr ot)) with (Return (A:=string) (Str.strip (Str.upper ot))) in Hv.
    rewrite Hot in Hv.
    destruct Hprice as [->|(p & Hp & Hle)].
    + repeat validation_step Hv.
    + repeat validation_step Hv; congruence.
  - destruct (validate_order_raises _ _ _ _ _ _ Hv) as (cls & str_e & ->). eauto.
Qed.

Lemma validate_quantity_rejected symbol side order_type quantity price q :
  py_float quantity = Return q -> PrimFloat.leb q 0 = true ->
  exists cls str_e,
    validate_order symbol side order_type quantity price = Raise (PyExc cls str_e).
Proof.
  intros Hq Hle.
  destruct (validate_order symbol side order_type quantity price)
    as [params|e] eqn:Hv.
  - exfalso. unfold validate_order in Hv.
    repeat validation_step Hv; congruence.
  - destruct (validate_order_raises _ _ _ _ _ _ Hv) as (cls & str_e & ->). eauto.
Qed.

(** C3 (amended): a LIMIT order whose price is [None], or coerces to a number
    that is not above zero, makes [place_order] raise a [RuntimeError] whose
    message is "Order failed: " and the text of the failure found first; no
    order is sent and the world is untouched.  When symbol, side and quantity
    pass their rules, the failure is the validation step's [ValueError] for
    the price rule. *)
Theorem place_order_rejects_limit_price
    symbol side (ot : string) quantity price m :
  Str.strip (Str.upper ot) = "LIMIT" ->
  price = PyNone
  \/ (exists p, py_float price = Return p /\ PrimFloat.leb p 0 = true) ->
  exists str_e,
    place_order symbol side (PyStr ot) quantity price m
    = (Raise (PyExc RuntimeError ("Order failed: " ++ str_e)),
       Machine (world m) (trace m ++ [Log ERROR ("Order failed: " ++ str_e) []]))
    /\ sent_orders (events_since m
                      (snd (place_order symbol side (PyStr ot) quantity price m))) = []
    /\ (symbol_ok symbol = true -> side_ok side = true ->
        quantity_ok quantity = true ->
        validate_order symbol side (PyStr ot) quantity price
        = Raise (PyExc ValueError str_e)
        /\ str_e = match price with
                   | PyNone => "Price is required for limit orders"
                   | _ => "Price must be positive"
                   end).
Proof.
  intros Hot Hprice.
  destruct (validate_limit_price_rejected symbol side ot quantity price Hot Hprice)
    as (cls & str_e & Hv).
  exists str_e. split; [|split].
  - exact (place_order_rejection _ _ _ _ _ _ _ m Hv).
  - now rewrite place_order_sends, Hv.
  - unfold symbol_ok, side_ok, quantity_ok. intros Hsym Hside Hqty.
    destruct (upper_strip symbol) as [s|] eqn:Es; [|discriminate].
    destruct (upper_strip side) as [sd|] eqn:Esd; [|discriminate].
    destruct (py_float quantity) as [q|] eqn:Eq; [|discriminate].
    apply negb_true_iff in Hqty.
    revert Hv. run_validation.
    destruct Hprice as [->|(p & Hp & Hle)].
    + intros H; inversion H; subst; split; reflexivity.
    + destruct price; try (cbn in Hp; discriminate Hp);
        run_validation; intros H; inversion H; subst; split; reflexivity.
Qed.

(** C4 (amended): a quantity that coerces to a number not above zero makes
    [place_order] raise, whatever the other fields are, a [RuntimeError]
    whose message is "Order failed: " and the text of the failure found
    first; no order is sent and the world is untouched.  When symbol and side
    pass their rules, the failure is the validation step's [ValueError]
    "Quantity must be positive". *)
Theorem place_order_rejects_quantity
    symbol side order_type quantity price q m :
  py_float quantity = Return q ->
  PrimFloat.leb q 0 = true ->
  exists str_e,
    place_order symbol side order_type quantity price m
    = (Raise (PyExc RuntimeError ("Order failed: " ++ str_e)),
       Machine (world m) (trace m ++ [Log ERROR ("Order failed: " ++ str_e) []]))
    /\ sent_orders (events_since m
                      (snd (place_order symbol side order_type quantity price m))) = []
    /\ (symbol_ok symbol = true -> side_ok side = true ->
        validate_order symbol side order_type quantity price
        = Raise (PyExc ValueError str_e)
        /\ str_e = "Quantity must be positive").
Proof.
  intros Hq Hle.
  destruct (validate_quantity_rejected symbol side order_type quantity price q Hq Hle)
    as (cls & str_e & Hv).
  exists str_e. split; [|split].
  - exact (place_order_rejection _ _ _ _ _ _ _ m Hv).
  - now rewrite place_order_sends, Hv.
  - unfold symbol_ok, side_ok. intros Hsym Hside.
    destruct (upper_strip symbol) as [s|] eqn:Es; [|discriminate].
    destruct (upper_strip side) as [sd|] eqn:Esd; [|discriminate].
    revert Hv. run_validation.
    intros H; inversion H; subst; split; reflexivity.
Qed.

(** C5: a MARKET order that passes validation is sent with exactly the four
    fields symbol, side, type and quantity, in that order: no price and no
    time-in-force qualifier, whatever the price argument is. *)
Theorem market_order_request
    symbol side (ot : string) quantity price params m :
  Str.strip (Str.upper ot) = "MARKET" ->
  validate_order symbol side (PyStr ot) quantity price = Return params ->
  (exists s sd q,
      upper_strip symbol = Return s /\ upper_strip side = Return sd
      /\ py_float quantity = Return q
      /\ params = [("symbol", PyStr s); ("side", PyStr sd);
                   ("type", PyStr "MARKET"); ("quantity", PyFloat q)])
  /\ dict_has params "price" = false
  /\ dict_has params "timeInForce" = false
  /\ (forall price',
         validate_order symbol side (PyStr ot) quantity price' = Return params)
  /\ sent_orders (events_since m
                    (snd (place_order symbol side (PyStr ot) quantity price m)))
     = [params].
Proof.
  intros Hot Hv.
  assert (Hsent := place_order_sends symbol side (PyStr ot) quantity price m).
  rewrite Hv in Hsent.
  unfold validate_order in Hv.
  change (upper_strip (PyStr ot))
    with (Return (A:=string) (Str.strip (Str.upper ot))) in Hv.
  rewrite Hot in Hv.
  repeat validation_step Hv.
  repeat split; try reflexivity; try exact Hsent.
  - eauto 10.
  - intros price'. run_validation. reflexivity.
Qed.

(** C8: the validation step does not see the case of its text arguments.  The
    lower-case and the upper-case spelling of the market buy of 0.001 BTCUSDT
    give the same request, and a run of [place_order] sends that request in
    either spelling; in general, uppercasing symbol, side and order type
    beforehand changes nothing. *)
Theorem validation_ignores_case :
  validate_order (PyStr "btcusdt") (PyStr "buy") (PyStr "market")
                 (PyFloat 0.001) PyNone
  = validate_order (PyStr "BTCUSDT") (PyStr "BUY") (PyStr "MARKET")
                   (PyFloat 0.001) PyNone
  /\ validate_order (PyStr "BTCUSDT") (PyStr "BUY") (PyStr "MARKET")
                    (PyFloat 0.001) PyNone
     = Return [("symbol", PyStr "BTCUSDT"); ("side", PyStr "BUY");
               ("type", PyStr "MARKET"); ("quantity", PyFloat 0.001)]
  /\ (forall m m' : machine W,
         sent_orders (events_since m
           (snd (place_order (PyStr "btcusdt") (PyStr "buy") (PyStr "market")
                             (PyFloat 0.001) PyNone m)))
         = sent_orders (events_since m'
           (snd (place_order (PyStr "BTCUSDT") (PyStr "BUY") (PyStr "MARKET")
                             (PyFloat 0.001) PyNone m'))))
  /\ (forall (s sd ot : string) quantity price,
         validate_order (PyStr (Str.upper s)) (PyStr (Str.upper sd))
                        (PyStr (Str.upper ot)) quantity price
         = validate_order (PyStr s) (PyStr sd) (PyStr ot) quantity price).
Proof.
  split; [reflexivity|]. split; [reflexivity|]. split.
  - intros m m'. rewrite !place_order_sends. reflexivity.
  - intros s sd ot quantity price. unfold validate_order.
    now rewrite !upper_strip_upper.
Qed.

(** C9: the validation step keeps no state.  Two runs of [place_order] on the
    same arguments, from any two machines (in particular the second from the
    machine the first one left), send the same orders: the same normalized
    request, or none; and when none is sent, both runs raise the same error
    and leave the world as it was. *)
Theorem validation_is_stateless
    symbol side order_type quantity price (m m' : machine W) :
  sent_orders (events_since m
     (snd (place_order symbol side order_type quantity price m)))
  = sent_orders (events_since m'
     (snd (place_order symbol side order_type quantity price m')))
  /\ sent_orders (events_since m
       (snd (place_order symbol side order_type quantity price m)))
     = sent_orders (events_since
         (snd (place_order symbol side order_type quantity price m))
         (snd (place_order symbol side order_type quantity price
                 (snd (place_order symbol side order_type quantity price m)))))
  /\ (sent_orders (events_since m
        (snd (place_order symbol side order_type quantity price m))) = [] ->
      fst (place_order symbol side order_type quantity price m)
      = fst (place_order symbol side order_type quantity price m')
      /\ world (snd (place_order symbol side order_type quantity price m))
         = world m).
Proof.
  rewrite !place_order_sends. split; [reflexivity|]. split; [reflexivity|].
  destruct (validate_order symbol side order_type quantity price)
    as [params|e] eqn:Hv; [discriminate|].
  intros _.
  destruct (validate_order_raises _ _ _ _ _ _ Hv) as (cls & str_e & ->).
  rewrite !(place_order_rejection _ _ _ _ _ _ _ _ Hv). split; reflexivity.
Qed.

(** C10: whatever makes [place_order] fail (a broken rule, a quantity or price
    that [float] cannot read, an argument of the wrong type, a rejection or
    any other failure of the exchange call), the exception that reaches the
    caller is a [RuntimeError] and never a [ValueError]; the handlers of
    [main] therefore print it under the label "Trading Error". *)
Theorem place_order_failures_are_RuntimeError
    symbol side order_type quantity price m e m' :
  place_order symbol side order_type quantity price m = (Raise e, m') ->
  (exists error_msg, e = PyExc RuntimeError error_msg)
  /\ is_instance ValueError e = false
  /\ main_except e m'
     = (Return 1%Z,
        Machine (world m')
          (trace m' ++ [Print "\n[ERROR] Trading Error: {str(e)}" [StrOf e]])).
Proof.
  intros Hrun.
  assert (He : exists error_msg, e = PyExc RuntimeError error_msg).
  { destruct (validate_order symbol side order_type quantity price)
      as [params|e0] eqn:Hv.
    - rewrite (place_order_accepted _ _ _ _ _ _ _ Hv), submit_run in Hrun.
      destruct (exchange (futures_create_order params) (world m))
        as [[response|[sc msg|cls msg]] w'];
        cbv zeta in Hrun; inversion Hrun; eauto.
    - destruct (validate_order_raises _ _ _ _ _ _ Hv) as (cls & str_e & ->).
      rewrite (place_order_rejection _ _ _ _ _ _ _ _ Hv) in Hrun.
      inversion Hrun; eauto. }
  destruct He as (error_msg & ->). split; [eauto|]. split; reflexivity.
Qed.

End PlaceOrderFacts.

(** ** Facts about the credential probe *)

(** The four calls of the probe, in the order of the source. *)
Definition probe_sequence : list api_call :=
  [futures_ping; futures_time; futures_account; futures_account_balance].

(** One step of reduction through the monad's operations. *)
Ltac machine_step :=
  cbv beta iota zeta
    delta [bind now call lift log print emit ret raise try_except truthy];
  cbn [world trace].

(** Running a method forward with what the context knows about the answers
    of the platform. *)
Ltac run_machine :=
  repeat first
    [ progress machine_step
    | match goal with
      | H : ?x = _ |- context [?x] => rewrite H
      end ].

(** Splitting a run of the probe by the answers of the platform. *)
Ltac probe_cases :=
  repeat
    (machine_step;
     match goal with
     | |- context [time_time ?w] => destruct (time_time w) as [? ?]
     | |- context [exchange ?c ?w] => destruct (exchange c w) as [[?|?] ?]
     | |- context [subscript ?v ?k] => destruct (subscript v k) as [?|?]
     | |- context [human_time ?v] => destruct (human_time v) as [?|?]
     | |- context [find_balance ?v ?a] => destruct (find_balance v a) as [?|?]
     | |- context [test_connection_except ?e] =>
         destruct e; unfold test_connection_except
     | |- context [if ?b then _ else _] => destruct b
     end);
  machine_step.

Section ProbeFacts.

Context {W : Type} `{P : Platform W}.

Lemma find_balance_absent (asset : string) (items : list pyval) :
  Forall (other_asset asset) items ->
  find_balance (PyList items) asset = Return PyNone.
Proof.
  intros H. unfold find_balance. simpl. now apply first_with_asset_absent.
Qed.

(** In any run, the probe calls a first part of its sequence, the ping at
    least, and all of it when it returns. *)
Lemma test_connection_calls (m : machine W) :
  exists n,
    1 <= n <= 4
    /\ calls (events_since m (snd (test_connection m))) = firstn n probe_sequence
    /\ (forall u, fst (test_connection m) = Return u -> n = 4).
Proof.
  unfold test_connection, test_connection_body.
  probe_cases;
    cbn [snd fst]; rewrite <- ?app_assoc; rewrite events_since_app;
    cbn [calls app];
    first [ exists 4; split; [lia|split]; [reflexivity|]
          | exists 3; split; [lia|split]; [reflexivity|]
          | exists 2; split; [lia|split]; [reflexivity|]
          | exists 1; split; [lia|split]; [reflexivity|] ];
    intros u Hu; first [reflexivity | discriminate Hu].
Qed.

(** C6: when the steps before the balances succeed and the balances fetched
    are a list with no item in USDT, the search for the USDT balance yields
    [None] and the probe completes.  For [test_connection] the steps are
    ping, server time and the account status with its field [canTrade]: it
    returns without raising after logging the warning "No USDT balance found"
    and no error.  For [test_api_credentials] they are the client's
    constructor, ping, server time and the account status with its three
    fields: it prints the warning line and returns [True]. *)
Theorem probe_without_usdt_balance :
  (forall (tr : list event) (w0 w1 w2 w3 w4 w5 w6 : W) (t0 t1 : float)
          (pong server_time millis account_info can_trade : pyval)
          (human : string) (items : list pyval),
      time_time w0 = (t0, w1) ->
      exchange futures_ping w1 = (Return pong, w2) ->
      time_time w2 = (t1, w3) ->
      exchange futures_time w3 = (Return server_time, w4) ->
      subscript server_time "serverTime" = Return millis ->
      human_time millis = Return human ->
      exchange futures_account w4 = (Return account_info, w5) ->
      subscript account_info "canTrade" = Return can_trade ->
      exchange futures_account_balance w5 = (Return (PyList items), w6) ->
      Forall (other_asset "USDT") items ->
      find_balance (PyList items) "USDT" = Return PyNone
      /\ test_connection (Machine w0 tr)
         = (Return tt,
            Machine w6
              (tr ++
                 [Call futures_ping;
                  Call futures_time;
                  Log INFO "API Connection Successful | Ping: %.2fms"
                      [Val (PyFloat ((t1 - t0) * 1000))];
                  Log INFO "Binance Server Time: %s UTC" [Val (PyStr human)];
                  Call futures_account;
                  Log INFO "Account Status: CanTrade=%s" [Val can_trade];
                  Call futures_account_balance;
                  Log WARNING "No USDT balance found" []]))
      /\ logged ERROR
           (events_since (Machine w0 tr) (snd (test_connection (Machine w0 tr))))
         = []
      /\ logged WARNING
           (events_since (Machine w0 tr) (snd (test_connection (Machine w0 tr))))
         = [Log WARNING "No USDT balance found" []])
  /\ (forall (api_key api_secret : string) (tr : list event)
             (wc w0 w1 w2 w3 w4 w5 w6 : W) (t0 t1 : float)
             (client pong server_time millis account_info : pyval)
             (can_trade can_withdraw can_deposit : pyval)
             (human : string) (items : list pyval),
         exchange (Client api_key api_secret true (Some "us")) wc
         = (Return client, w0) ->
         time_time w0 = (t0, w1) ->
         exchange futures_ping w1 = (Return pong, w2) ->
         time_time w2 = (t1, w3) ->
         exchange futures_time w3 = (Return server_time, w4) ->
         subscript server_time "serverTime" = Return millis ->
         human_time millis = Return human ->
         exchange futures_account w4 = (Return account_info, w5) ->
         subscript account_info "canTrade" = Return can_trade ->
         subscript account_info "canWithdraw" = Return can_withdraw ->
         subscript account_info "canDeposit" = Return can_deposit ->
         exchange futures_account_balance w5 = (Return (PyList items), w6) ->
         Forall (other_asset "USDT") items ->
         find_balance (PyList items) "USDT" = Return PyNone
         /\ test_api_credentials api_key api_secret (Machine wc tr)
            = (Return (PyBool true),
               Machine w6
                 (tr ++
                    [Print "Testing Binance API credentials..." [];
                     Call (Client api_key api_secret true (Some "us"));
                     Call futures_ping;
                     Print "[SUCCESS] API Connectivity: Working (Ping: {ping_time:.2f}ms)"
                           [Val (PyFloat ((t1 - t0) * 1000))];
                     Call futures_time;
                     Print "[SUCCESS] Server Time: {human_time} UTC"
                           [Val (PyStr human)];
                     Call futures_account;
                     Print "[SUCCESS] Account Information Received" [];
                     Print "    Can Trade: {account_info['canTrade']}"
                           [Val can_trade];
                     Print "    Can Withdraw: {account_info['canWithdraw']}"
                           [Val can_withdraw];
                     Print "    Can Deposit: {account_info['canDeposit']}"
                           [Val can_deposit];
                     Call futures_account_balance;
                     Print "[WARNING] No USDT balance found" [];
                     Print "\n[SUCCESS] All tests passed! Credentials are valid." []]))).
Proof.
  split.
  - intros tr w0 w1 w2 w3 w4 w5 w6 t0 t1 pong server_time millis account_info
      can_trade human items Ht0 Hping Ht1 Htime Hms Hhuman Hacct Hct Hbal Hitems.
    assert (Hfind := find_balance_absent "USDT" items Hitems).
    assert (Hrun : test_connection (Machine w0 tr)
       = (Return tt,
          Machine w6
            (tr ++
               [Call futures_ping;
                Call futures_time;
                Log INFO "API Connection Successful | Ping: %.2fms"
                    [Val (PyFloat ((t1 - t0) * 1000))];
                Log INFO "Binance Server Time: %s UTC" [Val (PyStr human)];
                Call futures_account;
                Log INFO "Account Status: CanTrade=%s" [Val can_trade];
                Call futures_account_balance;
                Log WARNING "No USDT balance found" []]))).
    { unfold test_connection, test_connection_body. run_machine.
      rewrite <- !app_assoc. reflexivity. }
    split; [exact Hfind|]. split; [exact Hrun|].
    rewrite Hrun. cbn [snd].
    rewrite (events_since_app (Machine w0 tr) w6).
    split; reflexivity.
  - intros api_key api_secret tr wc w0 w1 w2 w3 w4 w5 w6 t0 t1 client pong
      server_time millis account_info can_trade can_withdraw can_deposit human
      items Hclient Ht0 Hping Ht1 Htime Hms Hhuman Hacct Hct Hcw Hcd Hbal Hitems.
    assert (Hfind := find_balance_absent "USDT" items Hitems).
    split; [exact Hfind|].
    unfold test_api_credentials, test_api_credentials_body. run_machine.
    rewrite <- !app_assoc. reflexivity.
Qed.


End ProbeFacts.

(** ** The theorems at concrete inputs *)

(** C1, witness: the symbol "btceur" on an exchange that would fill the order
    if it were asked. *)
Lemma place_order_rejects_symbol_witness :
  Str.is_ascii "btceur" = true
  /\ Str.endswith (Str.strip (Str.upper "btceur")) "USDT" = false
  /\ place_order (PyStr "btceur") (PyStr "buy") (PyStr "market")
                 (PyFloat 0.001) PyNone (Scripted.boot [Scripted.filled])
     = (Raise (PyExc RuntimeError
                 "Order failed: Symbol must be a USDT-M pair (e.g., BTCUSDT)"),
        Machine [Scripted.filled]
          [Log ERROR "Order failed: Symbol must be a USDT-M pair (e.g., BTCUSDT)" []]).
Proof.
  split; [reflexivity|]. split; [reflexivity|].
  exact (proj1 (proj2
    (place_order_rejects_symbol "btceur" (PyStr "buy") (PyStr "market")
       (PyFloat 0.001) PyNone (Scripted.boot [Scripted.filled])
       eq_refl eq_refl))).
Defined.

(** C1, counterexample: for the symbol "btceur", which does not end with USDT,
    the exception [place_order] ends in is not a [ValueError]; it is a
    [RuntimeError]. *)
Lemma symbol_rejection_is_no_ValueError :
  Str.endswith (Str.strip (Str.upper "btceur")) "USDT" = false
  /\ raises ValueError
       (fst (place_order (PyStr "btceur") (PyStr "buy") (PyStr "market")
                         (PyFloat 0.001) PyNone (Scripted.boot [Scripted.filled])))
     = false
  /\ raises RuntimeError
       (fst (place_order (PyStr "btceur") (PyStr "buy") (PyStr "market")
                         (PyFloat 0.001) PyNone (Scripted.boot [Scripted.filled])))
     = true.
Proof. repeat split; reflexivity. Qed.

(** C2, witness: the exchange rejects a valid order with status 400. *)
Lemma place_order_translates_failures_witness :
  place_order (PyStr "BTCUSDT") (PyStr "BUY") (PyStr "MARKET")
              (PyFloat 0.001) PyNone (Scripted.boot [Scripted.invalid_symbol])
  = (Raise (PyExc RuntimeError "API Error 400: Invalid symbol."),
     Machine []
       [Log INFO "Placing order: %s"
            [Val (PyDict [("symbol", PyStr "BTCUSDT"); ("side", PyStr "BUY");
                          ("type", PyStr "MARKET"); ("quantity", PyFloat 0.001)])];
        Call (futures_create_order
                [("symbol", PyStr "BTCUSDT"); ("side", PyStr "BUY");
                 ("type", PyStr "MARKET"); ("quantity", PyFloat 0.001)]);
        Log ERROR "API Error 400: Invalid symbol." []]).
Proof.
  exact (place_order_translates_failures
           (PyStr "BTCUSDT") (PyStr "BUY") (PyStr "MARKET") (PyFloat 0.001) PyNone
           [("symbol", PyStr "BTCUSDT"); ("side", PyStr "BUY");
            ("type", PyStr "MARKET"); ("quantity", PyFloat 0.001)]
           (Scripted.boot [Scripted.invalid_symbol])
           (BinanceAPIException 400 "Invalid symbol.") [] eq_refl eq_refl).
Defined.

(** The other path of C2: a transport failure of the exchange call. *)
Example place_order_timed_out :
  place_order (PyStr "BTCUSDT") (PyStr "BUY") (PyStr "MARKET")
              (PyFloat 0.001) PyNone (Scripted.boot [Scripted.timed_out])
  = (Raise (PyExc RuntimeError "Order failed: read timed out"),
     Machine []
       [Log INFO "Placing order: %s"
            [Val (PyDict [("symbol", PyStr "BTCUSDT"); ("side", PyStr "BUY");
                          ("type", PyStr "MARKET"); ("quantity", PyFloat 0.001)])];
        Call (futures_create_order
                [("symbol", PyStr "BTCUSDT"); ("side", PyStr "BUY");
                 ("type", PyStr "MARKET"); ("quantity", PyFloat 0.001)]);
        Log ERROR "Order failed: read timed out" []]).
Proof. reflexivity. Qed.

(** C3, witness: a limit order with the price 0. *)
Lemma place_order_rejects_limit_price_witness :
  Str.strip (Str.upper "limit") = "LIMIT"
  /\ py_float (PyInt 0) = Return 0%float
  /\ PrimFloat.leb 0 0 = true
  /\ exists str_e,
      place_order (PyStr "ETHUSDT") (PyStr "sell") (PyStr "limit")
                  (PyFloat 0.1) (PyInt 0) (Scripted.boot [Scripted.filled])
      = (Raise (PyExc RuntimeError ("Order failed: " ++ str_e)),
         Machine [Scripted.filled] [Log ERROR ("Order failed: " ++ str_e) []])
      /\ str_e = "Price must be positive".
Proof.
  split; [reflexivity|]. split; [reflexivity|]. split; [reflexivity|].
  destruct (place_order_rejects_limit_price
              (PyStr "ETHUSDT") (PyStr "sell") "limit" (PyFloat 0.1) (PyInt 0)
              (Scripted.boot [Scripted.filled]) eq_refl
              (or_intror (ex_intro _ 0%float (conj eq_refl eq_refl))))
    as (str_e & Hrun & _ & Hrule).
  exists str_e. split; [exact Hrun|].
  exact (proj2 (Hrule eq_refl eq_refl eq_refl)).
Defined.

(** C3, counterexample: a limit order without a price ends in a
    [RuntimeError], not in a [ValueError]. *)
Lemma limit_price_rejection_is_no_ValueError :
  Str.strip (Str.upper "limit") = "LIMIT"
  /\ fst (place_order (PyStr "ETHUSDT") (PyStr "sell") (PyStr "limit")
                      (PyFloat 0.1) PyNone (Scripted.boot [Scripted.filled]))
     = Raise (PyExc RuntimeError "Order failed: Price is required for limit orders")
  /\ raises ValueError
       (fst (place_order (PyStr "ETHUSDT") (PyStr "sell") (PyStr "limit")
                         (PyFloat 0.1) PyNone (Scripted.boot [Scripted.filled])))
     = false.
Proof. repeat split; reflexivity. Qed.

(** C4, witness: the quantity -1, given as text. *)
Lemma place_order_rejects_quantity_witness :
  py_float (PyStr "-1") = Return (-1)%float
  /\ PrimFloat.leb (-1) 0 = true
  /\ exists str_e,
      place_order (PyStr "BTCUSDT") (PyStr "buy") (PyStr "market")
                  (PyStr "-1") PyNone (Scripted.boot [Scripted.filled])
      = (Raise (PyExc RuntimeError ("Order failed: " ++ str_e)),
         Machine [Scripted.filled] [Log ERROR ("Order failed: " ++ str_e) []])
      /\ str_e = "Quantity must be positive".
Proof.
  split; [reflexivity|]. split; [reflexivity|].
  destruct (place_order_rejects_quantity (P:=Scripted.platform)
              (PyStr "BTCUSDT") (PyStr "buy") (PyStr "market") (PyStr "-1") PyNone
              (-1)%float (Scripted.boot [Scripted.filled]) eq_refl eq_refl)
    as (str_e & Hrun & _ & Hrule).
  exists str_e. split; [exact Hrun|].
  exact (proj2 (Hrule eq_refl eq_refl)).
Defined.

(** C4, counterexample: the quantity -1 ends in a [RuntimeError], not in a
    [ValueError]. *)
Lemma quantity_rejection_is_no_ValueError :
  py_float (PyFloat (-1)) = Return (-1)%float
  /\ PrimFloat.leb (-1) 0 = true
  /\ fst (place_order (PyStr "BTCUSDT") (PyStr "buy") (PyStr "market")
                      (PyFloat (-1)) PyNone (Scripted.boot [Scripted.filled]))
     = Raise (PyExc RuntimeError "Order failed: Quantity must be positive")
  /\ raises ValueError
       (fst (place_order (PyStr "BTCUSDT") (PyStr "buy") (PyStr "market")
                         (PyFloat (-1)) PyNone (Scripted.boot [Scripted.filled])))
     = false.
Proof. repeat split; reflexivity. Qed.

(** With a symbol that is no text, a quantity below zero is not even looked
    at: the failure wrapped is the missing method. *)
Example quantity_rejection_with_bad_symbol :
  fst (place_order (PyInt 7) (PyStr "buy") (PyStr "market")
                   (PyFloat (-1)) PyNone (Scripted.boot [Scripted.filled]))
  = Raise (PyExc RuntimeError
             "Order failed: 'int' object has no attribute 'upper'").
Proof. reflexivity. Qed.

(** C5, witness: a market order with a price supplied. *)
Lemma market_order_request_witness :
  Str.strip (Str.upper "market") = "MARKET"
  /\ validate_order (PyStr "btcusdt") (PyStr "buy") (PyStr "market")
                    (PyFloat 0.001) (PyFloat 50000)
     = Return [("symbol", PyStr "BTCUSDT"); ("side", PyStr "BUY");
               ("type", PyStr "MARKET"); ("quantity", PyFloat 0.001)]
  /\ sent_orders
       (events_since (Scripted.boot [Scripted.filled])
          (snd (place_order (PyStr "btcusdt") (PyStr "buy") (PyStr "market")
                            (PyFloat 0.001) (PyFloat 50000)
                            (Scripted.boot [Scripted.filled]))))
     = [[("symbol", PyStr "BTCUSDT"); ("side", PyStr "BUY");
         ("type", PyStr "MARKET"); ("quantity", PyFloat 0.001)]].
Proof.
  split; [reflexivity|]. split; [reflexivity|].
  exact (proj2 (proj2 (proj2 (proj2
    (market_order_request (PyStr "btcusdt") (PyStr "buy") "market"
       (PyFloat 0.001) (PyFloat 50000)
       [("symbol", PyStr "BTCUSDT"); ("side", PyStr "BUY");
        ("type", PyStr "MARKET"); ("quantity", PyFloat 0.001)]
       (Scripted.boot [Scripted.filled]) eq_refl eq_refl))))).
Defined.

(** C10, witness: a quantity that [float] cannot read. *)
Lemma place_order_failures_are_RuntimeError_witness :
  place_order (PyStr "BTCUSDT") (PyStr "buy") (PyStr "market")
              (PyStr "ten") PyNone (Scripted.boot [Scripted.filled])
  = (Raise (PyExc RuntimeError
              "Order failed: could not convert string to float: 'ten'"),
     Machine [Scripted.filled]
       [Log ERROR "Order failed: could not convert string to float: 'ten'" []])
  /\ is_instance ValueError
       (PyExc RuntimeError
          "Order failed: could not convert string to float: 'ten'") = false.
Proof.
  split; [reflexivity|].
  exact (proj1 (proj2
    (place_order_failures_are_RuntimeError
       (PyStr "BTCUSDT") (PyStr "buy") (PyStr "market") (PyStr "ten") PyNone
       (Scripted.boot [Scripted.filled])
       (PyExc RuntimeError
          "Order failed: could not convert string to float: 'ten'")
       (Machine [Scripted.filled]
          [Log ERROR "Order failed: could not convert string to float: 'ten'" []])
       eq_refl))).
Defined.

(** What [main] prints for a [ValueError] of its own, next to what it prints
    for the failure above. *)
Example main_labels :
  trace (snd (main_except (PyExc ValueError "Price is required for limit orders")
                          (Scripted.boot [])))
  = [Print "\n[ERROR] Validation Error: {str(e)}"
           [StrOf (PyExc ValueError "Price is required for limit orders")];
     Print "Use -h for help with command usage" []]
  /\ trace (snd (main_except (PyExc RuntimeError "Order failed: Quantity must be positive")
                             (Scripted.boot [])))
     = [Print "\n[ERROR] Trading Error: {str(e)}"
              [StrOf (PyExc RuntimeError "Order failed: Quantity must be positive")]].
Proof. split; reflexivity. Qed.

(** C6, witness: a healthy account that holds BNB and BTC but no USDT; for
    [test_connection] the account status has the field [canTrade] alone. *)
Lemma probe_without_usdt_balance_witness :
  find_balance
    (PyList [PyDict [("asset", PyStr "BNB"); ("balance", PyStr "1.5")];
             PyDict [("asset", PyStr "BTC"); ("balance", PyStr "0.2")]]) "USDT"
  = Return PyNone
  /\ test_connection
       (Scripted.boot [Scripted.pong; Scripted.clock;
                       Return (PyDict [("canTrade", PyBool true)]);
                       Scripted.balances_without_usdt])
     = (Return tt,
        Machine []
          [Call futures_ping;
           Call futures_time;
           Log INFO "API Connection Successful | Ping: %.2fms"
               [Val (PyFloat ((0 - 0) * 1000))];
           Log INFO "Binance Server Time: %s UTC" [Val (PyStr "2024-01-01 00:00:00")];
           Call futures_account;
           Log INFO "Account Status: CanTrade=%s" [Val (PyBool true)];
           Call futures_account_balance;
           Log WARNING "No USDT balance found" []])
  /\ fst (test_api_credentials "key" "secret"
            (Scripted.boot [Return PyNone; Scripted.pong; Scripted.clock;
                            Scripted.account; Scripted.balances_without_usdt]))
     = Return (PyBool true).
Proof.
  assert (Hitems : Forall (other_asset "USDT")
            [PyDict [("asset", PyStr "BNB"); ("balance", PyStr "1.5")];
             PyDict [("asset", PyStr "BTC"); ("balance", PyStr "0.2")]]).
  { repeat constructor; eexists; split; reflexivity. }
  pose proof
    (proj1 (probe_without_usdt_balance (P:=Scripted.platform)) []
       [Scripted.pong; Scripted.clock;
        Return (PyDict [("canTrade", PyBool true)]);
        Scripted.balances_without_usdt]
       [Scripted.pong; Scripted.clock;
        Return (PyDict [("canTrade", PyBool true)]);
        Scripted.balances_without_usdt]
       [Scripted.clock; Return (PyDict [("canTrade", PyBool true)]);
        Scripted.balances_without_usdt]
       [Scripted.clock; Return (PyDict [("canTrade", PyBool true)]);
        Scripted.balances_without_usdt]
       [Return (PyDict [("canTrade", PyBool true)]);
        Scripted.balances_without_usdt]
       [Scripted.balances_without_usdt]
       [] 0%float 0%float
       (PyDict []) (PyDict [("serverTime", PyInt 1704067200000)])
       (PyInt 1704067200000)
       (PyDict [("canTrade", PyBool true)])
       (PyBool true) "2024-01-01 00:00:00"
       [PyDict [("asset", PyStr "BNB"); ("balance", PyStr "1.5")];
        PyDict [("asset", PyStr "BTC"); ("balance", PyStr "0.2")]]
       eq_refl eq_refl eq_refl eq_refl eq_refl eq_refl eq_refl eq_refl eq_refl
       Hitems)
    as (Hfind & Hrun & _ & _).
  pose proof
    (proj2 (probe_without_usdt_balance (P:=Scripted.platform))
       "key" "secret" []
       [Return PyNone; Scripted.pong; Scripted.clock; Scripted.account;
        Scripted.balances_without_usdt]
       [Scripted.pong; Scripted.clock; Scripted.account;
        Scripted.balances_without_usdt]
       [Scripted.pong; Scripted.clock; Scripted.account;
        Scripted.balances_without_usdt]
       [Scripted.clock; Scripted.account; Scripted.balances_without_usdt]
       [Scripted.clock; Scripted.account; Scripted.balances_without_usdt]
       [Scripted.account; Scripted.balances_without_usdt]
       [Scripted.balances_without_usdt]
       [] 0%float 0%float
       PyNone (PyDict []) (PyDict [("serverTime", PyInt 1704067200000)])
       (PyInt 1704067200000)
       (PyDict [("canTrade", PyBool true); ("canWithdraw", PyBool true);
                ("canDeposit", PyBool true)])
       (PyBool true) (PyBool true) (PyBool true) "2024-01-01 00:00:00"
       [PyDict [("asset", PyStr "BNB"); ("balance", PyStr "1.5")];
        PyDict [("asset", PyStr "BTC"); ("balance", PyStr "0.2")]]
       eq_refl eq_refl eq_refl eq_refl eq_refl eq_refl eq_refl eq_refl eq_refl
       eq_refl eq_refl eq_refl Hitems)
    as (_ & Hcred).
  split; [exact Hfind|]. split; [exact Hrun|].
  exact (f_equal fst Hcred).
Defined.

(** With a USDT balance the probe logs it instead of the warning. *)
Example probe_with_usdt_balance :
  logged WARNING
    (trace (snd (test_connection
                   (Scripted.boot [Scripted.pong; Scripted.clock; Scripted.account;
                                   Scripted.balances_with_usdt])))) = []
  /\ last (trace (snd (test_connection
                   (Scripted.boot [Scripted.pong; Scripted.clock; Scripted.account;
                                   Scripted.balances_with_usdt]))))
          (Call futures_ping)
     = Log INFO "Available Balance: %s USDT" [Val (PyStr "15000.0")].
Proof. split; reflexivity. Qed.



(** * Construction of the bot and the command line

    [BasicBot.__init__] (trading_bot.py, lines 9-38) and [main] (lines
    133-206), on top of the methods above. *)

(** The host's file system, as far as the bot touches it:
    [open_log_file name] is [logging.FileHandler(name, encoding='utf-8')],
    which opens the file for appending and raises when it cannot. *)
Class Host (W : Type) : Type := {
  open_log_file : string -> W -> result unit * W
}.

(** [s * n] *)
Fixpoint str_mul (s : string) (n : nat) : string :=
  match n with
  | O => EmptyString
  | S n' => s ++ str_mul s n'
  end.

(** [sub in s] for two strings. *)
Fixpoint is_substring (sub s : string) : bool :=
  String.prefix sub s
  || match s with
     | EmptyString => false
     | String _ s' => is_substring sub s'
     end.

(** [key in v] for a string key: a key of a [dict], an item of a [list], a
    part of a [str]. *)
Definition contains (v : pyval) (key : string) : result bool :=
  match v with
  | PyDict d => Return (dict_has d key)
  | PyList l => Return (existsb (fun x => eq_str x key) l)
  | PyStr s => Return (is_substring key s)
  | _ => Raise (PyExc TypeError
                  ("argument of type '" ++ type_name v ++ "' is not iterable"))
  end.

(** What [parser.parse_args()] returns: the text arguments as given, quantity
    and price converted by [float], the price [None] when left out. *)
Record Namespace : Type := {
  arg_symbol : string;
  arg_side : string;
  arg_type : string;
  arg_quantity : float;
  arg_price : option float;
  arg_api_key : string;
  arg_api_secret : string
}.

(** [choices=['buy', 'sell']] and [choices=['market', 'limit']]: what the
    parser lets through. *)
Definition choices_ok (args : Namespace) : bool :=
  existsb (String.eqb (arg_side args)) ["buy"; "sell"]
  && existsb (String.eqb (arg_type args)) ["market"; "limit"].

(** The price as [place_order] receives it. *)
Definition price_arg (args : Namespace) : pyval :=
  match arg_price args with
  | Some p => PyFloat p
  | None => PyNone
  end.

Section Cli.

Context {W : Type} `{P : Platform W} `{H : Host W}.

Local Open Scope bot_scope.

(** Lines 14-22: the logger and the two handlers; only the log file can
    fail. *)
Definition configure_logging : M W unit :=
  fun m =>
    let (r, w') := open_log_file "trading_bot.log" (world m) in
    (r, Machine w' (trace m)).

(** [except Exception as e], lines 36-38: log, then a bare [raise]. *)
Definition BasicBot_init_except (e : exn) : M W unit :=
  log ERROR "Initialization failed: %s" [StrOf e] ;;
  raise e.

(** [BasicBot.__init__] *)
Definition BasicBot_init (api_key api_secret : string) : M W unit :=
  configure_logging ;;
  try_except
    (call (Client api_key api_secret true None) ;;
     test_connection ;;
     log INFO "Trading bot initialized successfully" [])
    BasicBot_init_except.

(** Lines 178-195 of [main]: the report of an order.  The text of a string
    literal stands as the source writes it. *)
Definition output_order_details (response : pyval) : M W unit :=
  print ("\n" ++ str_mul "=" 50) [] ;;
  print "[SUCCESS] Order Execution Details:" [] ;;
  print (str_mul "=" 50) [] ;;
  order_id <- lift (subscript response "orderId") ;;
  print "Order ID: {response['orderId']}" [Val order_id] ;;
  symbol <- lift (subscript response "symbol") ;;
  print "Symbol: {response['symbol']}" [Val symbol] ;;
  status <- lift (subscript response "status") ;;
  print "Status: {response['status']}" [Val status] ;;
  side <- lift (subscript response "side") ;;
  print "Side: {response['side']}" [Val side] ;;
  type <- lift (subscript response "type") ;;
  print "Type: {response['type']}" [Val type] ;;
  orig_qty <- lift (subscript response "origQty") ;;
  print "Quantity: {response['origQty']}" [Val orig_qty] ;;
  has_price <- lift (contains response "price") ;;
  (if has_price : bool then
     price <- lift (subscript response "price") ;;
     print "Price: {response['price']}" [Val price]
   else ret tt) ;;
  executed_qty <- lift (subscript response "executedQty") ;;
  print "Executed Qty: {response['executedQty']}" [Val executed_qty] ;;
  has_avg_price <- lift (contains response "avgPrice") ;;
  (if has_avg_price : bool then
     avg_price <- lift (subscript response "avgPrice") ;;
     print "Avg Price: {response['avgPrice']}" [Val avg_price]
   else ret tt) ;;
  print (str_mul "=" 50) [] ;;
  print "Check Binance Testnet for full order details" [] ;;
  print "https://testnet.binancefuture.com" [].

(** The [try] block of [main], lines 160-195. *)
Definition main_try (args : Namespace) : M W unit :=
  print "Initializing bot and testing API credentials..." [] ;;
  BasicBot_init (arg_api_key args) (arg_api_secret args) ;;
  (if String.eqb (arg_type args) "limit"
      && match arg_price args with None => true | Some _ => false end
   then raise (PyExc ValueError "Price is required for limit orders")
   else ret tt) ;;
  print "Placing order..." [] ;;
  response <- place_order (PyStr (arg_symbol args)) (PyStr (arg_side args))
                          (PyStr (arg_type args)) (PyFloat (arg_quantity args))
                          (price_arg args) ;;
  output_order_details response.

(** [main] after the arguments are parsed; its result is the exit status of
    the process: 0 when the [try] block ends, the argument of [exit] in a
    handler.  The new wrapper around the standard output on Windows (lines
    135-137) changes no line that is printed. *)
Definition main (args : Namespace) : M W Z :=
  try_except (main_try args ;; ret 0%Z) main_except.

End Cli.

(** A disk for the scripted platform: one where the log file opens, and one
    where it does not, whose error names the absolute path of the file in the
    working directory [cwd], as [logging.FileHandler] opens it. *)
Module Disk.

#[global] Instance writable : Host Scripted.world := {|
  open_log_file := fun _ w => (Return tt, w)
|}.

Definition read_only (cwd : string) : Host Scripted.world := {|
  open_log_file := fun name w =>
    (Raise (PyExc (OtherException "PermissionError")
              ("[Errno 13] Permission denied: "
                 ++ Str.repr (cwd ++ "/" ++ name))), w)
|}.

(** The answers of a run of [main] that places a market order. *)
Definition order_answer : result pyval :=
  Return (PyDict [("orderId", PyInt 42); ("symbol", PyStr "BTCUSDT");
                  ("status", PyStr "NEW"); ("side", PyStr "BUY");
                  ("type", PyStr "MARKET"); ("origQty", PyStr "0.001");
                  ("executedQty", PyStr "0"); ("avgPrice", PyStr "0.00")]).

Definition healthy (order : result pyval) : Scripted.world :=
  [Return PyNone; Scripted.pong; Scripted.clock; Scripted.account;
   Scripted.balances_with_usdt; order].

Definition market_buy : Namespace := {|
  arg_symbol := "BTCUSDT"; arg_side := "buy"; arg_type := "market";
  arg_quantity := 0.001; arg_price := None;
  arg_api_key := "key"; arg_api_secret := "secret"
|}.

Definition limit_sell (price : option float) : Namespace := {|
  arg_symbol := "ETHUSDT"; arg_side := "sell"; arg_type := "limit";
  arg_quantity := 0.1; arg_price := price;
  arg_api_key := "key"; arg_api_secret := "secret"
|}.

End Disk.

Example main_market_buy :
  fst (main Disk.market_buy (Scripted.boot (Disk.healthy Disk.order_answer)))
  = Return 0%Z
  /\ sent_orders
       (trace (snd (main Disk.market_buy
                      (Scripted.boot (Disk.healthy Disk.order_answer)))))
     = [[("symbol", PyStr "BTCUSDT"); ("side", PyStr "BUY");
         ("type", PyStr "MARKET"); ("quantity", PyFloat 0.001)]].
Proof. split; reflexivity. Qed.

Example main_limit_without_price :
  fst (main (Disk.limit_sell None) (Scripted.boot (Disk.healthy Disk.order_answer)))
  = Return 1%Z
  /\ sent_orders
       (trace (snd (main (Disk.limit_sell None)
                      (Scripted.boot (Disk.healthy Disk.order_answer)))))
     = [].
Proof. split; reflexivity. Qed.

(** * Further properties of the code *)

(** ** The validation step *)

Lemma side_choice (sd : string) :
  existsb (String.eqb sd) ["BUY"; "SELL"] = true <-> sd = "BUY" \/ sd = "SELL".
Proof.
  cbn [existsb]. rewrite orb_false_r, orb_true_iff, !String.eqb_eq. tauto.
Qed.

Lemma type_choice (ot : string) :
  existsb (String.eqb ot) ["MARKET"; "LIMIT"] = true
  <-> ot = "MARKET" \/ ot = "LIMIT".
Proof.
  cbn [existsb]. rewrite orb_false_r, orb_true_iff, !String.eqb_eq. tauto.
Qed.

Section ValidationFacts.

Context {W : Type} `{P : Platform W}.

Implicit Types (m : machine W) (symbol side order_type quantity price : pyval).

(** X1: whatever [validate_order] accepts satisfies every rule, and the
    request has one of two shapes: the four fields of a MARKET order, or the
    six fields of a LIMIT order, whose price was given, coerces to a number
    that is not at or below zero, and is followed by the qualifier GTC. *)
Theorem validated_request_well_formed
    symbol side order_type quantity price params :
  validate_order symbol side order_type quantity price = Return params ->
  exists s sd q,
    upper_strip symbol = Return s /\ Str.endswith s "USDT" = true
    /\ upper_strip side = Return sd /\ (sd = "BUY" \/ sd = "SELL")
    /\ py_float quantity = Return q /\ PrimFloat.leb q 0 = false
    /\ ((upper_strip order_type = Return "MARKET"
         /\ params = [("symbol", PyStr s); ("side", PyStr sd);
                      ("type", PyStr "MARKET"); ("quantity", PyFloat q)])
        \/ (upper_strip order_type = Return "LIMIT"
            /\ exists p,
                price <> PyNone /\ py_float price = Return p
                /\ PrimFloat.leb p 0 = false
                /\ params = [("symbol", PyStr s); ("side", PyStr sd);
                             ("type", PyStr "LIMIT"); ("quantity", PyFloat q);
                             ("price", PyFloat p);
                             ("timeInForce", PyStr "GTC")])).
Proof.
  unfold validate_order. intros Hv.
  destruct (upper_strip symbol) as [s|] eqn:Es; cbn [rbind] in Hv; [|discriminate].
  destruct (Str.endswith s "USDT") eqn:Hs; cbn [negb] in Hv; [|discriminate].
  destruct (upper_strip side) as [sd|] eqn:Esd; cbn [rbind] in Hv; [|discriminate].
  destruct (existsb (String.eqb sd) ["BUY"; "SELL"]) eqn:Hsd;
    cbn [negb] in Hv; [|discriminate].
  destruct (py_float quantity) as [q|] eqn:Eq; cbn [rbind] in Hv; [|discriminate].
  destruct (PrimFloat.leb q 0) eqn:Hq; [discriminate|].
  destruct (upper_strip order_type) as [ot|] eqn:Eot; cbn [rbind] in Hv;
    [|discriminate].
  destruct (existsb (String.eqb ot) ["MARKET"; "LIMIT"]) eqn:Hot;
    cbn [negb] in Hv; [|discriminate].
  apply side_choice in Hsd.
  exists s, sd, q. repeat (split; [assumption || reflexivity|]).
  destruct (String.eqb ot "LIMIT") eqn:Hlimit.
  - apply String.eqb_eq in Hlimit. subst ot. right. split; [reflexivity|].
    destruct (py_float price) as [p|] eqn:Ep.
    + exists p.
      assert (Hnone : price <> PyNone).
      { intros ->. cbn in Ep. discriminate Ep. }
      split; [exact Hnone|]. split; [reflexivity|].
      destruct price; try contradiction; cbn [rbind] in Hv;
        (destruct (PrimFloat.leb p 0) eqn:Hp; [discriminate|]);
        injection Hv as <-; split; reflexivity.
    + exfalso. destruct price; cbn [rbind] in Hv; discriminate Hv.
  - apply type_choice in Hot. destruct Hot as [->| ->]; [|discriminate Hlimit].
    left. split; [reflexivity|]. now injection Hv as <-.
Qed.

(** The price rule of a LIMIT order, like [symbol_ok] and its siblings. *)
Definition price_ok (price : pyval) : bool :=
  match price with
  | PyNone => false
  | _ => match py_float price with
         | Return p => negb (PrimFloat.leb p 0)
         | Raise _ => false
         end
  end.

(** Unfolding the rule predicates into what they say of the values. *)
Ltac open_rules :=
  repeat match goal with
    | H : symbol_ok ?v = true |- _ =>
        unfold symbol_ok in H;
        let s := fresh "s" in let E := fresh "Es" in
        destruct (upper_strip v) as [s|] eqn:E; [|discriminate H]
    | H : side_ok ?v = true |- _ =>
        unfold side_ok in H;
        let s := fresh "sd" in let E := fresh "Esd" in
        destruct (upper_strip v) as [s|] eqn:E; [|discriminate H]
    | H : quantity_ok ?v = true |- _ =>
        unfold quantity_ok in H;
        let q := fresh "q" in let E := fresh "Eq" in
        destruct (py_float v) as [q|] eqn:E; [|discriminate H];
        apply negb_true_iff in H
    end.

Lemma validate_market_accepted symbol side order_type quantity price :
  symbol_ok symbol = true -> side_ok side = true -> quantity_ok quantity = true ->
  upper_strip order_type = Return "MARKET" ->
  exists s sd q,
    upper_strip symbol = Return s /\ upper_strip side = Return sd
    /\ py_float quantity = Return q
    /\ validate_order symbol side order_type quantity price
       = Return [("symbol", PyStr s); ("side", PyStr sd);
                 ("type", PyStr "MARKET"); ("quantity", PyFloat q)].
Proof.
  intros Hsym Hside Hqty Hot. open_rules.
  exists s, sd, q. repeat (split; [reflexivity|]).
  run_validation. reflexivity.
Qed.

(** X2: a LIMIT order that passes the five rules is accepted, and the one
    order sent has six fields in this order: symbol, side, type, quantity,
    the price as a float, and the qualifier timeInForce = GTC. *)
Theorem valid_limit_order_is_sent symbol side order_type quantity price m :
  symbol_ok symbol = true -> side_ok side = true -> quantity_ok quantity = true ->
  upper_strip order_type = Return "LIMIT" ->
  price_ok price = true ->
  exists s sd q p,
    upper_strip symbol = Return s /\ upper_strip side = Return sd
    /\ py_float quantity = Return q /\ py_float price = Return p
    /\ validate_order symbol side order_type quantity price
       = Return [("symbol", PyStr s); ("side", PyStr sd);
                 ("type", PyStr "LIMIT"); ("quantity", PyFloat q);
                 ("price", PyFloat p); ("timeInForce", PyStr "GTC")]
    /\ sent_orders (events_since m
         (snd (place_order symbol side order_type quantity price m)))
       = [[("symbol", PyStr s); ("side", PyStr sd);
           ("type", PyStr "LIMIT"); ("quantity", PyFloat q);
           ("price", PyFloat p); ("timeInForce", PyStr "GTC")]].
Proof.
  intros Hsym Hside Hqty Hot Hprice. open_rules.
  unfold price_ok in Hprice.
  destruct (py_float price) as [p|] eqn:Ep;
    [|destruct price; discriminate Hprice].
  assert (Hp : PrimFloat.leb p 0 = false).
  { destruct price; try discriminate Hprice; now apply negb_true_iff in Hprice. }
  assert (Hv : validate_order symbol side order_type quantity price
       = Return [("symbol", PyStr s); ("side", PyStr sd);
                 ("type", PyStr "LIMIT"); ("quantity", PyFloat q);
                 ("price", PyFloat p); ("timeInForce", PyStr "GTC")]).
  { run_validation.
    destruct price; try discriminate Hprice; run_validation; reflexivity. }
  exists s, sd, q, p. repeat (split; [reflexivity|]).
  split; [exact Hv|]. now rewrite place_order_sends, Hv.
Qed.

(** X3: a MARKET order that passes the symbol, side and quantity rules is
    accepted whatever the price argument is, and its four fields are the one
    order sent. *)
Theorem valid_market_order_is_sent symbol side order_type quantity price m :
  symbol_ok symbol = true -> side_ok side = true -> quantity_ok quantity = true ->
  upper_strip order_type = Return "MARKET" ->
  exists s sd q,
    upper_strip symbol = Return s /\ upper_strip side = Return sd
    /\ py_float quantity = Return q
    /\ sent_orders (events_since m
         (snd (place_order symbol side order_type quantity price m)))
       = [[("symbol", PyStr s); ("side", PyStr sd);
           ("type", PyStr "MARKET"); ("quantity", PyFloat q)]].
Proof.
  intros Hsym Hside Hqty Hot.
  destruct (validate_market_accepted symbol side order_type quantity price
              Hsym Hside Hqty Hot) as (s & sd & q & Es & Esd & Eq & Hv).
  exists s, sd, q. repeat (split; [assumption|]).
  now rewrite place_order_sends, Hv.
Qed.

(** X4: the quantity check is the comparison [quantity <= 0] of binary64
    numbers, which is false for NaN and for infinity: with a valid symbol and
    side, a MARKET order whose quantity is NaN or infinite passes validation
    and is sent with that quantity. *)
Theorem quantity_check_admits_nan symbol side order_type price m (q : float) :
  symbol_ok symbol = true -> side_ok side = true ->
  upper_strip order_type = Return "MARKET" ->
  q = nan \/ q = infinity ->
  exists s sd,
    sent_orders (events_since m
      (snd (place_order symbol side order_type (PyFloat q) price m)))
    = [[("symbol", PyStr s); ("side", PyStr sd);
        ("type", PyStr "MARKET"); ("quantity", PyFloat q)]].
Proof.
  intros Hsym Hside Hot Hq.
  assert (Hqty : quantity_ok (PyFloat q) = true).
  { destruct Hq as [->| ->]; reflexivity. }
  destruct (validate_market_accepted symbol side order_type (PyFloat q) price
              Hsym Hside Hqty Hot) as (s & sd & q' & Es & Esd & Eq & Hv).
  injection Eq as <-.
  exists s, sd. now rewrite place_order_sends, Hv.
Qed.

(** X5: with a valid symbol, a side of ASCII text that is neither BUY nor
    SELL after uppercasing and trimming is rejected before quantity, order
    type and price are looked at: [place_order] raises the [RuntimeError] for
    the side rule and sends nothing. *)
Theorem place_order_rejects_side
    symbol (text : string) order_type quantity price m :
  symbol_ok symbol = true ->
  Str.is_ascii text = true ->
  Str.strip (Str.upper text) <> "BUY" ->
  Str.strip (Str.upper text) <> "SELL" ->
  place_order symbol (PyStr text) order_type quantity price m
  = (Raise (PyExc RuntimeError "Order failed: Side must be 'BUY' or 'SELL'"),
     Machine (world m)
       (trace m ++ [Log ERROR "Order failed: Side must be 'BUY' or 'SELL'" []])).
Proof.
  intros Hsym _ Hbuy Hsell. open_rules.
  assert (Hsd : existsb (String.eqb (Str.strip (Str.upper text))) ["BUY"; "SELL"]
                = false).
  { destruct (existsb (String.eqb (Str.strip (Str.upper text))) ["BUY"; "SELL"])
      eqn:E; [|reflexivity].
    apply side_choice in E. tauto. }
  apply place_order_rejection with (cls := ValueError).
  run_validation. reflexivity.
Qed.

(** X6: with a valid symbol, side and quantity, an order type of ASCII text
    that is neither MARKET nor LIMIT after uppercasing and trimming is
    rejected whatever the price is: [place_order] raises the [RuntimeError]
    for the order type rule and sends nothing. *)
Theorem place_order_rejects_order_type
    symbol side (text : string) quantity price m :
  symbol_ok symbol = true -> side_ok side = true -> quantity_ok quantity = true ->
  Str.is_ascii text = true ->
  Str.strip (Str.upper text) <> "MARKET" ->
  Str.strip (Str.upper text) <> "LIMIT" ->
  place_order symbol side (PyStr text) quantity price m
  = (Raise (PyExc RuntimeError "Order failed: Order type must be MARKET or LIMIT"),
     Machine (world m)
       (trace m ++ [Log ERROR "Order failed: Order type must be MARKET or LIMIT" []])).
Proof.
  intros Hsym Hside Hqty _ Hmarket Hlimit. open_rules.
  assert (Hot : existsb (String.eqb (Str.strip (Str.upper text)))
                  ["MARKET"; "LIMIT"] = false).
  { destruct (existsb (String.eqb (Str.strip (Str.upper text)))
                ["MARKET"; "LIMIT"]) eqn:E; [|reflexivity].
    apply type_choice in E. tauto. }
  apply place_order_rejection with (cls := ValueError).
  run_validation. reflexivity.
Qed.

(** X7: a symbol that is not text has no method [upper]: the
    [AttributeError] is wrapped like every other failure, its message names
    the type of the value, and nothing is sent. *)
Theorem place_order_rejects_non_text_symbol
    symbol side order_type quantity price m :
  (forall s, symbol <> PyStr s) ->
  place_order symbol side order_type quantity price m
  = (Raise (PyExc RuntimeError
              ("Order failed: '" ++ type_name symbol
                 ++ "' object has no attribute 'upper'")),
     Machine (world m)
       (trace m ++
          [Log ERROR ("Order failed: '" ++ type_name symbol
                        ++ "' object has no attribute 'upper'") []])).
Proof.
  intros Hsym.
  apply place_order_rejection with (cls := AttributeError).
  unfold validate_order.
  destruct symbol; try reflexivity. now destruct (Hsym s).
Qed.

(** X8: with a valid symbol and side, a quantity given as ASCII text that
    [float] cannot read makes [place_order] raise a [RuntimeError] that
    quotes the text, before the order type and the price are looked at;
    nothing is sent. *)
Theorem place_order_rejects_malformed_quantity
    symbol side order_type price (text : string) m :
  symbol_ok symbol = true -> side_ok side = true ->
  Str.is_ascii text = true ->
  float_of_string text = None ->
  place_order symbol side order_type (PyStr text) price m
  = (Raise (PyExc RuntimeError
              ("Order failed: could not convert string to float: "
                 ++ Str.repr text)),
     Machine (world m)
       (trace m ++
          [Log ERROR ("Order failed: could not convert string to float: "
                        ++ Str.repr text) []])).
Proof.
  intros Hsym Hside _ Htext. open_rules.
  apply place_order_rejection with (cls := ValueError).
  run_validation. cbn [py_float]. rewrite Htext. reflexivity.
Qed.

End ValidationFacts.

(** ** Padding *)

(** Text made of characters that [strip] removes. *)
Fixpoint all_space (s : string) : bool :=
  match s with
  | EmptyString => true
  | String c s' => Str.isspace c && all_space s'
  end.

Lemma upper_char_space (c : ascii) :
  Str.isspace c = true -> Str.upper_char c = c.
Proof.
  destruct c as [[] [] [] [] [] [] [] []]; intros Hc;
    first [reflexivity | discriminate Hc].
Qed.

Lemma upper_space (s : string) : all_space s = true -> Str.upper s = s.
Proof.
  induction s as [|c s IH]; simpl; [reflexivity|].
  intros Hs. apply andb_true_iff in Hs as [Hc Hs].
  now rewrite (upper_char_space c Hc), IH.
Qed.

Lemma upper_app (a b : string) :
  Str.upper (a ++ b) = Str.upper a ++ Str.upper b.
Proof.
  induction a as [|c a IH]; simpl; [reflexivity|]. now rewrite IH.
Qed.

Lemma lstrip_space (s : string) : all_space s = true -> Str.lstrip s = "".
Proof.
  induction s as [|c s IH]; simpl; [reflexivity|].
  intros Hs. apply andb_true_iff in Hs as [Hc Hs]. rewrite Hc. now apply IH.
Qed.

Lemma lstrip_app_space (l s : string) :
  all_space l = true -> Str.lstrip (l ++ s) = Str.lstrip s.
Proof.
  induction l as [|c l IH]; simpl; [reflexivity|].
  intros Hl. apply andb_true_iff in Hl as [Hc Hl]. rewrite Hc. now apply IH.
Qed.

Lemma rstrip_space (s : string) : all_space s = true -> Str.rstrip s = "".
Proof.
  induction s as [|c s IH]; simpl; [reflexivity|].
  intros Hs. apply andb_true_iff in Hs as [Hc Hs]. now rewrite (IH Hs), Hc.
Qed.

Lemma rstrip_app_space (s r : string) :
  all_space r = true -> Str.rstrip (s ++ r) = Str.rstrip s.
Proof.
  intros Hr. induction s as [|c s IH]; simpl.
  - now apply rstrip_space.
  - now rewrite IH.
Qed.

Lemma strip_app_space (s r : string) :
  all_space r = true -> Str.strip (s ++ r) = Str.strip s.
Proof.
  intros Hr. unfold Str.strip. induction s as [|c s IH]; simpl.
  - now rewrite (lstrip_space r Hr).
  - destruct (Str.isspace c); [exact IH|].
    exact (rstrip_app_space (String c s) r Hr).
Qed.

Lemma upper_strip_padded (l s r : string) :
  all_space l = true -> all_space r = true ->
  upper_strip (PyStr (l ++ s ++ r)) = upper_strip (PyStr s).
Proof.
  intros Hl Hr. unfold upper_strip.
  rewrite !upper_app, (upper_space l Hl), (upper_space r Hr).
  unfold Str.strip at 1. rewrite (lstrip_app_space l _ Hl).
  fold (Str.strip (Str.upper s ++ r)). now rewrite strip_app_space.
Qed.

Section PaddingFacts.

Context {W : Type} `{P : Platform W}.

(** X9: white space around symbol, side and order type does not matter: an
    order whose three text arguments are padded on either side with
    characters that [strip] removes validates to the same result as the order
    without the padding, so the same request is sent or the same rule is
    reported. *)
Theorem validation_ignores_padding
    (l1 r1 l2 r2 l3 r3 s sd ot : string) (quantity price : pyval) :
  all_space l1 = true -> all_space r1 = true ->
  all_space l2 = true -> all_space r2 = true ->
  all_space l3 = true -> all_space r3 = true ->
  validate_order (PyStr (l1 ++ s ++ r1)) (PyStr (l2 ++ sd ++ r2))
                 (PyStr (l3 ++ ot ++ r3)) quantity price
  = validate_order (PyStr s) (PyStr sd) (PyStr ot) quantity price.
Proof.
  intros Hl1 Hr1 Hl2 Hr2 Hl3 Hr3. unfold validate_order.
  now rewrite (upper_strip_padded l1 s r1), (upper_strip_padded l2 sd r2),
    (upper_strip_padded l3 ot r3).
Qed.

End PaddingFacts.

(** ** Runs of [place_order] *)

Section RunFacts.

Context {W : Type} `{P : Platform W}.

Implicit Types (m : machine W) (symbol side order_type quantity price : pyval).

(** X10: when validation accepts the order and the exchange answers, the
    answer is returned as it came, after the records "Placing order" and
    "Order successful", with the one call of [futures_create_order] between
    them. *)
Theorem place_order_returns_answer
    symbol side order_type quantity price params response m w' :
  validate_order symbol side order_type quantity price = Return params ->
  exchange (futures_create_order params) (world m) = (Return response, w') ->
  place_order symbol side order_type quantity price m
  = (Return response,
     Machine w'
       (trace m ++
          [Log INFO "Placing order: %s" [Val (PyDict params)];
           Call (futures_create_order params);
           Log INFO "Order successful: %s" [Val response]])).
Proof.
  intros Hv Hx.
  now rewrite (place_order_accepted _ _ _ _ _ _ _ Hv), submit_run, Hx.
Qed.

(** X11: a run of [place_order] calls no method of the client but
    [futures_create_order], and that at most once; a run that returns has
    called it exactly once.  The order is never sent a second time, also
    when the exchange fails. *)
Theorem place_order_calls_once symbol side order_type quantity price m :
  calls (events_since m
           (snd (place_order symbol side order_type quantity price m)))
  = map futures_create_order
      (sent_orders (events_since m
         (snd (place_order symbol side order_type quantity price m))))
  /\ List.length
       (sent_orders (events_since m
          (snd (place_order symbol side order_type quantity price m)))) <= 1
  /\ (forall response,
         fst (place_order symbol side order_type quantity price m)
         = Return response ->
         List.length
           (sent_orders (events_since m
              (snd (place_order symbol side order_type quantity price m)))) = 1).
Proof.
  destruct (validate_order symbol side order_type quantity price)
    as [params|e] eqn:Hv.
  - rewrite (place_order_accepted _ _ _ _ _ _ _ Hv), submit_run.
    destruct (exchange (futures_create_order params) (world m))
      as [[response|[sc msg|cls msg]] w'];
      cbv zeta; cbn [fst snd]; rewrite events_since_app;
      repeat split; cbn; auto.
  - destruct (validate_order_raises _ _ _ _ _ _ Hv) as (cls & str_e & ->).
    rewrite (place_order_rejection _ _ _ _ _ _ _ m Hv).
    cbn [fst snd]. rewrite events_since_app.
    repeat split; cbn; auto. intros response [=].
Qed.

(** X12: a run of [place_order] that returns logs no error; a run that raises
    logs exactly one record at level ERROR, and its text is the message of
    the [RuntimeError] raised. *)
Theorem place_order_logs_its_error symbol side order_type quantity price m :
  match fst (place_order symbol side order_type quantity price m) with
  | Return _ =>
      logged ERROR (events_since m
        (snd (place_order symbol side order_type quantity price m))) = []
  | Raise e =>
      exists error_msg,
        e = PyExc RuntimeError error_msg
        /\ logged ERROR (events_since m
             (snd (place_order symbol side order_type quantity price m)))
           = [Log ERROR error_msg []]
  end.
Proof.
  destruct (validate_order symbol side order_type quantity price)
    as [params|e] eqn:Hv.
  - rewrite (place_order_accepted _ _ _ _ _ _ _ Hv), submit_run.
    destruct (exchange (futures_create_order params) (world m))
      as [[response|[sc msg|cls msg]] w'];
      cbv zeta; cbn [fst snd]; rewrite events_since_app;
      first [reflexivity | eexists; split; reflexivity].
  - destruct (validate_order_raises _ _ _ _ _ _ Hv) as (cls & str_e & ->).
    rewrite (place_order_rejection _ _ _ _ _ _ _ m Hv).
    cbn [fst snd]. rewrite events_since_app.
    eexists; split; reflexivity.
Qed.

End RunFacts.

(** ** The search for the USDT balance *)

Lemma subscript_raises (v : pyval) (key : string) (e : exn) :
  subscript v key = Raise e -> exists cls msg, e = PyExc cls msg.
Proof.
  destruct v; simpl; try (intros [= <-]; eauto; fail).
  destruct (dict_get d key); intros [= <-]; eauto.
Qed.

Lemma subscript_truthy (v : pyval) (key : string) (x : pyval) :
  subscript v key = Return x -> truthy v = true.
Proof.
  destruct v; simpl; try discriminate.
  destruct d as [|[k y] d]; simpl; [discriminate|reflexivity].
Qed.

Lemma first_with_asset_skips (asset : string) (pre rest : list pyval) :
  Forall (other_asset asset) pre ->
  first_with_asset (pre ++ rest) asset = first_with_asset rest asset.
Proof.
  induction 1 as [|item pre [a [Ha Hne]] _ IH]; simpl.
  - reflexivity.
  - rewrite Ha. simpl. rewrite Hne. exact IH.
Qed.

(** X13: the search of lines 62 and 39 yields the first item in USDT and
    stops there: the items after it are not read, so they cannot make the
    probe fail; and what it yields counts as true in [if usdt_balance]. *)
Theorem balance_search_stops_at_first_match
    (pre post : list pyval) (item a : pyval) :
  Forall (other_asset "USDT") pre ->
  subscript item "asset" = Return a ->
  eq_str a "USDT" = true ->
  find_balance (PyList (pre ++ item :: post)) "USDT" = Return item
  /\ truthy item = true.
Proof.
  intros Hpre Ha Heq. split.
  - unfold find_balance. simpl. rewrite (first_with_asset_skips _ _ _ Hpre).
    simpl. now rewrite Ha; simpl; rewrite Heq.
  - exact (subscript_truthy _ _ _ Ha).
Qed.

(** X14: an item that cannot be asked for its asset, met before any item in
    USDT, makes the search raise; for a [dict] without the key the exception
    is [KeyError] with the text ['asset']. *)
Theorem balance_search_raises_on_bad_item
    (pre post : list pyval) (item : pyval) (e : exn) :
  Forall (other_asset "USDT") pre ->
  subscript item "asset" = Raise e ->
  find_balance (PyList (pre ++ item :: post)) "USDT" = Raise e
  /\ (forall d, item = PyDict d -> e = PyExc KeyError "'asset'").
Proof.
  intros Hpre Ha. split.
  - unfold find_balance. simpl. rewrite (first_with_asset_skips _ _ _ Hpre).
    simpl. now rewrite Ha.
  - intros d ->. simpl in Ha. destruct (dict_get d "asset"); [discriminate|].
    now injection Ha as <-.
Qed.

(** ** Runs of the probe *)

(** The record [test_connection] logs for an exception. *)
Definition probe_error_record (e : exn) : event :=
  match e with
  | BinanceAPIException status_code message =>
      Log ERROR "API Error: %s - %s" [Val (PyInt status_code); Val (PyStr message)]
  | PyExc _ _ => Log ERROR "Connection test failed: %s" [StrOf e]
  end.

Section ProbeRuns.

Context {W : Type} `{P : Platform W}.

(** X15: the probe only reads.  In every run, [test_connection] sends no
    order and calls a first part of ping, time, account, balances (the ping
    at least, all four when it returns); [test_api_credentials] sends no
    order either. *)
Theorem probe_is_read_only (api_key api_secret : string) (m : machine W) :
  sent_orders (events_since m (snd (test_connection m))) = []
  /\ (exists n,
         1 <= n <= 4
         /\ calls (events_since m (snd (test_connection m)))
            = firstn n probe_sequence
         /\ (forall u, fst (test_connection m) = Return u -> n = 4))
  /\ sent_orders
       (events_since m (snd (test_api_credentials api_key api_secret m))) = [].
Proof.
  split; [|split].
  - unfold test_connection, test_connection_body.
    probe_cases;
      cbn [snd]; rewrite <- ?app_assoc; rewrite events_since_app; reflexivity.
  - exact (test_connection_calls m).
  - unfold test_api_credentials, test_api_credentials_body,
      test_api_credentials_except.
    probe_cases;
      cbn [snd]; rewrite <- ?app_assoc; rewrite events_since_app; reflexivity.
Qed.

(** X16: a run of [test_connection] that returns logs no error; a run that
    raises logs exactly one record at level ERROR, the one for the exception
    it raises. *)
Theorem test_connection_logs_its_error (m : machine W) :
  match fst (test_connection m) with
  | Return _ => logged ERROR (events_since m (snd (test_connection m))) = []
  | Raise e =>
      logged ERROR (events_since m (snd (test_connection m)))
      = [probe_error_record e]
  end.
Proof.
  unfold test_connection, test_connection_body.
  probe_cases;
    cbn [fst snd]; rewrite <- ?app_assoc; rewrite events_since_app; reflexivity.
Qed.

(** X17: [test_api_credentials] never raises and never logs: every run
    returns [True] or [False]; it returns [True] only after all five calls
    (the constructor, ping, time, account, balances), and what it has to say
    goes to the console. *)
Theorem test_api_credentials_returns_a_bool
    (api_key api_secret : string) (m : machine W) :
  (exists b : bool,
      fst (test_api_credentials api_key api_secret m) = Return (PyBool b)
      /\ (b = true ->
          calls (events_since m
                   (snd (test_api_credentials api_key api_secret m)))
          = Client api_key api_secret true (Some "us") :: probe_sequence))
  /\ (forall lvl,
         logged lvl (events_since m
                       (snd (test_api_credentials api_key api_secret m))) = []).
Proof.
  unfold test_api_credentials, test_api_credentials_body,
    test_api_credentials_except.
  probe_cases;
    cbn [fst snd]; rewrite <- ?app_assoc; rewrite events_since_app;
    (split;
     [ first [ exists true; split; [reflexivity | intros _; reflexivity]
             | exists false; split; [reflexivity | discriminate] ]
     | intros lvl; destruct lvl; reflexivity ]).
Qed.

End ProbeRuns.

Section ProbeWithBalance.

Context {W : Type} `{P : Platform W}.

(** X18: when ping, time and account status succeed and the balances hold
    an item in USDT, [test_connection] reads the field [balance] of the
    first such item: it logs it as the available balance and returns, or,
    when the item has no such field, logs the failure as an error and raises
    it; in neither case does it log the warning. *)
Theorem probe_reports_usdt_balance
    (tr : list event) (w0 w1 w2 w3 w4 w5 w6 : W) (t0 t1 : float)
    (pong server_time millis account_info can_trade item a : pyval)
    (human : string) (pre post : list pyval) :
  time_time w0 = (t0, w1) ->
  exchange futures_ping w1 = (Return pong, w2) ->
  time_time w2 = (t1, w3) ->
  exchange futures_time w3 = (Return server_time, w4) ->
  subscript server_time "serverTime" = Return millis ->
  human_time millis = Return human ->
  exchange futures_account w4 = (Return account_info, w5) ->
  subscript account_info "canTrade" = Return can_trade ->
  exchange futures_account_balance w5 = (Return (PyList (pre ++ item :: post)), w6) ->
  Forall (other_asset "USDT") pre ->
  subscript item "asset" = Return a ->
  eq_str a "USDT" = true ->
  test_connection (Machine w0 tr)
  = let seen :=
      [Call futures_ping;
       Call futures_time;
       Log INFO "API Connection Successful | Ping: %.2fms"
           [Val (PyFloat ((t1 - t0) * 1000))];
       Log INFO "Binance Server Time: %s UTC" [Val (PyStr human)];
       Call futures_account;
       Log INFO "Account Status: CanTrade=%s" [Val can_trade];
       Call futures_account_balance] in
    match subscript item "balance" with
    | Return amount =>
        (Return tt,
         Machine w6
           (tr ++ seen ++ [Log INFO "Available Balance: %s USDT" [Val amount]]))
    | Raise e =>
        (Raise e,
         Machine w6
           (tr ++ seen ++ [Log ERROR "Connection test failed: %s" [StrOf e]]))
    end.
Proof.
  intros Ht0 Hping Ht1 Htime Hms Hhuman Hacct Hct Hbal Hpre Ha Heq.
  assert (Hfind : find_balance (PyList (pre ++ item :: post)) "USDT" = Return item).
  { unfold find_balance. simpl. rewrite (first_with_asset_skips _ _ _ Hpre).
    simpl. now rewrite Ha; simpl; rewrite Heq. }
  destruct item as [| | | | | |d]; try discriminate Ha.
  destruct d as [|kv d]; [discriminate Ha|].
  unfold test_connection, test_connection_body.
  destruct (subscript (PyDict (kv :: d)) "balance") as [amount|e] eqn:Hamount.
  - run_machine. rewrite <- !app_assoc. reflexivity.
  - destruct (subscript_raises _ _ _ Hamount) as (cls & msg & ->).
    run_machine. unfold test_connection_except. run_machine.
    rewrite <- !app_assoc. reflexivity.
Qed.

End ProbeWithBalance.

(** ** Construction of the bot *)

Lemma sent_orders_app (l1 l2 : list event) :
  sent_orders (l1 ++ l2) = (sent_orders l1 ++ sent_orders l2)%list.
Proof.
  induction l1 as [|ev l1 IH]; simpl; [reflexivity|].
  destruct ev as [lvl fmt args|fmt args|c]; try exact IH.
  destruct c; try exact IH. simpl. now rewrite IH.
Qed.

Lemma events_since_extends {W : Type} (m m' : machine W) (l : list event) :
  trace m' = (trace m ++ l)%list -> events_since m m' = l.
Proof.
  intros Hl. unfold events_since. rewrite Hl.
  rewrite skipn_app, skipn_all, Nat.sub_diag. reflexivity.
Qed.

(** Splitting a run of the constructor by the answers of the platform and of
    the host. *)
Ltac init_cases :=
  repeat
    (machine_step;
     match goal with
     | |- context [open_log_file ?n ?w] =>
         destruct (open_log_file n w) as [[[]|?] ?]
     | |- context [time_time ?w] => destruct (time_time w) as [? ?]
     | |- context [exchange ?c ?w] => destruct (exchange c w) as [[?|?] ?]
     | |- context [subscript ?v ?k] => destruct (subscript v k) as [?|?]
     | |- context [human_time ?v] => destruct (human_time v) as [?|?]
     | |- context [find_balance ?v ?a] => destruct (find_balance v a) as [?|?]
     | |- context [test_connection_except ?e] =>
         destruct e; unfold test_connection_except
     | |- context [if ?b then _ else _] => destruct b
     end);
  machine_step.

Section InitFacts.

Context {W : Type} `{P : Platform W} `{H : Host W}.

(** What a run of the constructor adds to the trace holds no order. *)
Lemma init_extends (api_key api_secret : string) (m : machine W) :
  exists l,
    trace (snd (BasicBot_init api_key api_secret m)) = (trace m ++ l)%list
    /\ sent_orders l = [].
Proof.
  unfold BasicBot_init, configure_logging, BasicBot_init_except,
    test_connection, test_connection_body.
  init_cases; cbn [snd trace];
    first [ exists []; split; [now rewrite app_nil_r | reflexivity]
          | eexists; split; [rewrite <- ?app_assoc; reflexivity | reflexivity] ].
Qed.

(** What a run of the constructor that returns has done. *)
Lemma init_returned (api_key api_secret : string) (m : machine W) u :
  fst (BasicBot_init api_key api_secret m) = Return u ->
  calls (events_since m (snd (BasicBot_init api_key api_secret m)))
  = Client api_key api_secret true None :: probe_sequence
  /\ logged ERROR
       (events_since m (snd (BasicBot_init api_key api_secret m))) = []
  /\ last (events_since m (snd (BasicBot_init api_key api_secret m)))
          (Call futures_ping)
     = Log INFO "Trading bot initialized successfully" [].
Proof.
  revert u.
  unfold BasicBot_init, configure_logging, BasicBot_init_except,
    test_connection, test_connection_body.
  init_cases; cbn [fst snd]; intros u Hu; try discriminate Hu;
    rewrite <- ?app_assoc; rewrite events_since_app;
    repeat split; reflexivity.
Qed.

(** X19: constructing the bot never sends an order; and a bot that is
    constructed has called the client's constructor, ping, time, account and
    balances, in this order and nothing else, has logged no error, and its
    last record is "Trading bot initialized successfully". *)
Theorem constructed_bot_has_probed (api_key api_secret : string) (m : machine W) :
  sent_orders (events_since m (snd (BasicBot_init api_key api_secret m))) = []
  /\ (forall u,
         fst (BasicBot_init api_key api_secret m) = Return u ->
         calls (events_since m (snd (BasicBot_init api_key api_secret m)))
         = Client api_key api_secret true None :: probe_sequence
         /\ logged ERROR
              (events_since m (snd (BasicBot_init api_key api_secret m))) = []
         /\ last (events_since m (snd (BasicBot_init api_key api_secret m)))
                 (Call futures_ping)
            = Log INFO "Trading bot initialized successfully" []).
Proof.
  split.
  - destruct (init_extends api_key api_secret m) as (l & Hl & Hsent).
    now rewrite (events_since_extends _ _ _ Hl).
  - intros u Hu. exact (init_returned api_key api_secret m u Hu).
Qed.

(** X20: a construction that fails raises the exception that stopped it,
    and what it logged tells where it stopped.  Either the log file could not
    be opened: nothing was called and nothing logged.  Or the client's
    constructor failed: one error record, "Initialization failed".  Or the
    probe failed: two error records for the one failure, the probe's own and
    then "Initialization failed". *)
Theorem failed_construction_records (api_key api_secret : string) (m : machine W) :
  forall e,
    fst (BasicBot_init api_key api_secret m) = Raise e ->
    events_since m (snd (BasicBot_init api_key api_secret m)) = []
    \/ (calls (events_since m (snd (BasicBot_init api_key api_secret m)))
        = [Client api_key api_secret true None]
        /\ logged ERROR
             (events_since m (snd (BasicBot_init api_key api_secret m)))
           = [Log ERROR "Initialization failed: %s" [StrOf e]])
    \/ (exists n,
           1 <= n <= 4
           /\ calls (events_since m (snd (BasicBot_init api_key api_secret m)))
              = Client api_key api_secret true None :: firstn n probe_sequence
           /\ logged ERROR
                (events_since m (snd (BasicBot_init api_key api_secret m)))
              = [probe_error_record e;
                 Log ERROR "Initialization failed: %s" [StrOf e]]).
Proof.
  unfold BasicBot_init, configure_logging, BasicBot_init_except,
    test_connection, test_connection_body.
  init_cases; cbn [fst snd]; intros exc He; try discriminate He;
    injection He as <-;
    first
      [ left; apply events_since_same
      | rewrite <- ?app_assoc; rewrite events_since_app;
        first
          [ right; left; split; reflexivity
          | right; right;
            first [ exists 4; split; [lia|split; reflexivity]
                  | exists 3; split; [lia|split; reflexivity]
                  | exists 2; split; [lia|split; reflexivity]
                  | exists 1; split; [lia|split; reflexivity] ] ] ].
Qed.

End InitFacts.

(** ** The command line *)

(** Splitting a run of the report by what the answer holds. *)
Ltac report_cases :=
  repeat
    (machine_step;
     match goal with
     | |- context [subscript ?v ?k] => destruct (subscript v k) as [?|?]
     | |- context [contains ?v ?k] => destruct (contains v k) as [[|]|?]
     end);
  machine_step.

Section MainFacts.

Context {W : Type} `{P : Platform W} `{H : Host W}.

Implicit Types (m : machine W) (args : Namespace).

(** The machine after the first line of [main]. *)
Definition announced m : machine W :=
  Machine (world m)
    (trace m ++ [Print "Initializing bot and testing API credentials..." []]).

(** The machine in which [main] calls [place_order]. *)
Definition ready m : machine W :=
  Machine (world m) (trace m ++ [Print "Placing order..." []]).

(** The test of line 165. *)
Definition limit_without_price args : bool :=
  String.eqb (arg_type args) "limit"
  && match arg_price args with None => true | Some _ => false end.

(** [place_order] as [main] calls it. *)
Definition place args : M W pyval :=
  place_order (PyStr (arg_symbol args)) (PyStr (arg_side args))
              (PyStr (arg_type args)) (PyFloat (arg_quantity args))
              (price_arg args).

(** [main], stage by stage. *)
Lemma main_stages args m :
  main args m
  = match BasicBot_init (arg_api_key args) (arg_api_secret args) (announced m) with
    | (Raise e, m2) => main_except e m2
    | (Return _, m2) =>
        if limit_without_price args then
          main_except (PyExc ValueError "Price is required for limit orders") m2
        else
          match place args (ready m2) with
          | (Raise e, m3) => main_except e m3
          | (Return response, m3) =>
              match output_order_details response m3 with
              | (Raise e, m4) => main_except e m4
              | (Return _, m4) => (Return 0%Z, m4)
              end
          end
    end.
Proof.
  unfold main, main_try, place, limit_without_price, announced, ready.
  cbv beta iota zeta delta [bind print emit ret raise try_except].
  cbn [world trace].
  destruct (BasicBot_init _ _ _) as [[u|e] m2]; [|reflexivity].
  destruct (_ && _); [reflexivity|].
  cbn [world trace].
  destruct (place_order _ _ _ _ _ _) as [[response|e] m3]; [|reflexivity].
  destruct (output_order_details response m3) as [[u'|e] m4]; reflexivity.
Qed.

(** Every handler of [main] prints and ends the process with status 1. *)
Lemma main_except_run (e : exn) m :
  exists l,
    main_except e m = (Return 1%Z, Machine (world m) (trace m ++ l))
    /\ sent_orders l = [].
Proof.
  unfold main_except.
  destruct (is_instance ValueError e); [|destruct (is_instance RuntimeError e)];
    machine_step; eexists; (split; [rewrite <- ?app_assoc; reflexivity|reflexivity]).
Qed.

Lemma place_order_extends symbol side order_type quantity price m :
  exists l,
    trace (snd (place_order symbol side order_type quantity price m))
    = (trace m ++ l)%list
    /\ sent_orders l
       = match validate_order symbol side order_type quantity price with
         | Return params => [params]
         | Raise _ => []
         end.
Proof.
  destruct (validate_order symbol side order_type quantity price)
    as [params|e] eqn:Hv.
  - rewrite (place_order_accepted _ _ _ _ _ _ _ Hv), submit_run.
    destruct (exchange (futures_create_order params) (world m))
      as [[response|[sc msg|cls msg]] w'];
      cbv zeta; cbn [snd trace]; eexists; split; reflexivity.
  - destruct (validate_order_raises _ _ _ _ _ _ Hv) as (cls & str_e & ->).
    rewrite (place_order_rejection _ _ _ _ _ _ _ m Hv).
    cbn [snd trace]. eexists; split; reflexivity.
Qed.

Lemma place_order_returned symbol side order_type quantity price m response m' :
  place_order symbol side order_type quantity price m = (Return response, m') ->
  exists params,
    validate_order symbol side order_type quantity price = Return params.
Proof.
  intros Hrun.
  destruct (validate_order symbol side order_type quantity price)
    as [params|e] eqn:Hv; [eauto|].
  destruct (validate_order_raises _ _ _ _ _ _ Hv) as (cls & str_e & ->).
  rewrite (place_order_rejection _ _ _ _ _ _ _ m Hv) in Hrun. discriminate Hrun.
Qed.

Lemma output_extends (response : pyval) m :
  exists l,
    trace (snd (output_order_details response m)) = (trace m ++ l)%list
    /\ sent_orders l = [].
Proof.
  unfold output_order_details.
  report_cases; cbn [snd trace];
    eexists; (split; [rewrite <- ?app_assoc; reflexivity | reflexivity]).
Qed.

(** Putting the traces of the stages of a run together. *)
Ltac join_traces :=
  cbn [snd trace];
  repeat first
    [ match goal with
      | Hl : trace ?x = _ |- context [trace ?x] => rewrite Hl
      end
    | progress (unfold announced, ready; cbn [trace]) ];
  rewrite <- ?app_assoc; reflexivity.

Ltac count_orders :=
  repeat rewrite sent_orders_app;
  repeat match goal with
    | Hs : sent_orders ?l = _ |- context [sent_orders ?l] => rewrite Hs
    end;
  reflexivity.

(** Every run of [main] ends with a status; it has sent no order, or the one
    order its arguments validate to. *)
Lemma main_run args m :
  exists status l,
    fst (main args m) = Return status
    /\ trace (snd (main args m)) = (trace m ++ l)%list
    /\ ((status = 1%Z /\ sent_orders l = [])
        \/ ((status = 0%Z \/ status = 1%Z)
            /\ exists params,
                validate_order (PyStr (arg_symbol args)) (PyStr (arg_side args))
                               (PyStr (arg_type args)) (PyFloat (arg_quantity args))
                               (price_arg args) = Return params
                /\ sent_orders l = [params])).
Proof.
  rewrite main_stages.
  destruct (init_extends (arg_api_key args) (arg_api_secret args) (announced m))
    as (l0 & Hl0 & Hs0).
  destruct (BasicBot_init _ _ _) as [[u|e] m2]; cbn [snd] in Hl0.
  2:{ destruct (main_except_run e m2) as (l & -> & Hs).
      do 2 eexists. split; [reflexivity|]. split; [join_traces|].
      left. split; [reflexivity|count_orders]. }
  destruct (limit_without_price args).
  { destruct (main_except_run
                (PyExc ValueError "Price is required for limit orders") m2)
      as (l & -> & Hs).
    do 2 eexists. split; [reflexivity|]. split; [join_traces|].
    left. split; [reflexivity|count_orders]. }
  unfold place.
  destruct (place_order_extends
              (PyStr (arg_symbol args)) (PyStr (arg_side args))
              (PyStr (arg_type args)) (PyFloat (arg_quantity args))
              (price_arg args) (ready m2)) as (l1 & Hl1 & Hs1).
  destruct (place_order _ _ _ _ _ _) as [[response|e] m3] eqn:Hplace;
    cbn [snd] in Hl1.
  2:{ destruct (main_except_run e m3) as (l & -> & Hs).
      do 2 eexists. split; [reflexivity|]. split; [join_traces|].
      destruct (validate_order _ _ _ _ _) as [params|e'].
      - right. split; [now right|]. exists params. split; [reflexivity|].
        count_orders.
      - left. split; [reflexivity|count_orders]. }
  destruct (place_order_returned _ _ _ _ _ _ _ _ Hplace) as (params & Hv).
  rewrite Hv in Hs1.
  destruct (output_extends response m3) as (l2 & Hl2 & Hs2).
  destruct (output_order_details response m3) as [[u'|e] m4]; cbn [snd] in Hl2.
  - do 2 eexists. split; [reflexivity|]. split; [join_traces|].
    right. split; [now left|]. exists params. split; [exact Hv|count_orders].
  - destruct (main_except_run e m4) as (l & -> & Hs).
    do 2 eexists. split; [reflexivity|]. split; [join_traces|].
    right. split; [now right|]. exists params. split; [exact Hv|count_orders].
Qed.

(** X21: [main] handles every exception of its [try] block: every run ends
    with the status 0 or 1.
    A run sends at most one order; a run that ends with 0 has sent exactly
    one, the request its arguments validate to. *)
Theorem main_exit_status args m :
  (fst (main args m) = Return 0%Z \/ fst (main args m) = Return 1%Z)
  /\ List.length (sent_orders (events_since m (snd (main args m)))) <= 1
  /\ (fst (main args m) = Return 0%Z ->
      exists params,
        validate_order (PyStr (arg_symbol args)) (PyStr (arg_side args))
                       (PyStr (arg_type args)) (PyFloat (arg_quantity args))
                       (price_arg args) = Return params
        /\ sent_orders (events_since m (snd (main args m))) = [params]).
Proof.
  destruct (main_run args m) as (status & l & Hstatus & Hl & Horders).
  rewrite (events_since_extends _ _ _ Hl), Hstatus.
  destruct Horders as [[-> Hs]|[Hst (params & Hv & Hs)]]; rewrite Hs.
  - split; [now right|]. split; [cbn; lia|]. intros [=].
  - split; [destruct Hst as [->| ->]; [now left|now right]|].
    split; [cbn; lia|]. intros _. now exists params.
Qed.

(** X22: a limit order without a price is refused by [main] itself, but
    only after the bot is constructed: the probe has made its five calls by
    then.  [main] prints the message under the label "Validation Error",
    ends with status 1, and no order is sent. *)
Theorem main_refuses_limit_without_price args m m2 u :
  arg_type args = "limit" ->
  arg_price args = None ->
  BasicBot_init (arg_api_key args) (arg_api_secret args) (announced m)
  = (Return u, m2) ->
  main args m
  = (Return 1%Z,
     Machine (world m2)
       (trace m2 ++
          [Print "\n[ERROR] Validation Error: {str(e)}"
                 [StrOf (PyExc ValueError "Price is required for limit orders")];
           Print "Use -h for help with command usage" []]))
  /\ sent_orders (events_since m (snd (main args m))) = []
  /\ calls (events_since (announced m) m2)
     = Client (arg_api_key args) (arg_api_secret args) true None
         :: probe_sequence.
Proof.
  intros Htype Hprice Hinit.
  assert (Hrun : main args m
  = (Return 1%Z,
     Machine (world m2)
       (trace m2 ++
          [Print "\n[ERROR] Validation Error: {str(e)}"
                 [StrOf (PyExc ValueError "Price is required for limit orders")];
           Print "Use -h for help with command usage" []]))).
  { rewrite main_stages, Hinit. unfold limit_without_price.
    rewrite Htype, Hprice. cbn [String.eqb Ascii.eqb Bool.eqb andb].
    unfold main_except. cbn [is_instance exn_class_eqb].
    machine_step. rewrite <- !app_assoc. reflexivity. }
  split; [exact Hrun|]. split.
  - destruct (init_extends (arg_api_key args) (arg_api_secret args) (announced m))
      as (l0 & Hl0 & Hs0).
    rewrite Hinit in Hl0. cbn [snd] in Hl0.
    rewrite Hrun. cbn [snd].
    rewrite (events_since_extends m _
               ([Print "Initializing bot and testing API credentials..." []]
                  ++ l0
                  ++ [Print "\n[ERROR] Validation Error: {str(e)}"
                            [StrOf (PyExc ValueError
                                      "Price is required for limit orders")];
                      Print "Use -h for help with command usage" []])).
    + rewrite !sent_orders_app, Hs0. reflexivity.
    + cbn [trace]. rewrite Hl0. unfold announced. cbn [trace].
      rewrite <- !app_assoc. reflexivity.
  - pose proof (init_returned (arg_api_key args) (arg_api_secret args)
                  (announced m) u) as Hret.
    rewrite Hinit in Hret. exact (proj1 (Hret eq_refl)).
Qed.

Lemma subscript_raises_class (v : pyval) (key : string) (e : exn) :
  subscript v key = Raise e ->
  exists msg, e = PyExc KeyError msg \/ e = PyExc TypeError msg.
Proof.
  destruct v; simpl; try (intros [= <-]; eauto; fail).
  destruct (dict_get d key); intros [= <-]; eauto.
Qed.

Lemma contains_raises_class (v : pyval) (key : string) (e : exn) :
  contains v key = Raise e -> exists msg, e = PyExc TypeError msg.
Proof.
  destruct v; simpl; intros [= <-]; eauto.
Qed.

(** The report raises nothing but what reading the answer raises. *)
Lemma output_raises (response : pyval) m e m' :
  output_order_details response m = (Raise e, m') ->
  is_instance ValueError e = false /\ is_instance RuntimeError e = false.
Proof.
  unfold output_order_details.
  repeat
    (machine_step;
     match goal with
     | |- context [subscript ?v ?k] =>
         let E := fresh "E" in
         destruct (subscript v k) as [?|?] eqn:E;
         [|apply subscript_raises_class in E as (? & [->| ->])]
     | |- context [contains ?v ?k] =>
         let E := fresh "E" in
         destruct (contains v k) as [[|]|?] eqn:E;
         [| |apply contains_raises_class in E as (? & ->)]
     end);
    machine_step; intros Hrun; try discriminate Hrun;
    injection Hrun as <- <-; split; reflexivity.
Qed.

(** X23: the status 1 does not mean that no order was placed.  When the
    order is sent and answered but the report cannot read the answer (a
    field is missing, or the answer is no [dict]), [main] prints the failure
    under the label "Unexpected Error" and ends with status 1, after the one
    order has been sent. *)
Theorem main_fails_after_order args m m2 m3 m4 u response e :
  BasicBot_init (arg_api_key args) (arg_api_secret args) (announced m)
  = (Return u, m2) ->
  limit_without_price args = false ->
  place args (ready m2) = (Return response, m3) ->
  output_order_details response m3 = (Raise e, m4) ->
  main args m
  = (Return 1%Z,
     Machine (world m4)
       (trace m4 ++ [Print "\n[ERROR] Unexpected Error: {str(e)}" [StrOf e]]))
  /\ List.length (sent_orders (events_since m (snd (main args m)))) = 1.
Proof.
  intros Hinit Hcheck Hplace Hout.
  assert (Hrun : main args m
  = (Return 1%Z,
     Machine (world m4)
       (trace m4 ++ [Print "\n[ERROR] Unexpected Error: {str(e)}" [StrOf e]]))).
  { rewrite main_stages, Hinit, Hcheck, Hplace, Hout.
    destruct (output_raises _ _ _ _ Hout) as (Hv & Hr).
    unfold main_except. rewrite Hv, Hr. reflexivity. }
  split; [exact Hrun|].
  destruct (main_run args m) as (status & l & Hstatus & Hl & Horders).
  rewrite (events_since_extends _ _ _ Hl).
  destruct Horders as [[_ Hs]|[_ (params & _ & Hs)]]; [|now rewrite Hs].
  exfalso.
  destruct (init_extends (arg_api_key args) (arg_api_secret args) (announced m))
    as (l0 & Hl0 & Hs0).
  rewrite Hinit in Hl0. cbn [snd] in Hl0.
  unfold place in Hplace.
  destruct (place_order_extends
              (PyStr (arg_symbol args)) (PyStr (arg_side args))
              (PyStr (arg_type args)) (PyFloat (arg_quantity args))
              (price_arg args) (ready m2)) as (l1 & Hl1 & Hs1).
  destruct (place_order_returned _ _ _ _ _ _ _ _ Hplace) as (params & Hv).
  rewrite Hplace in Hl1. cbn [snd] in Hl1. rewrite Hv in Hs1.
  destruct (output_extends response m3) as (l2 & Hl2 & Hs2).
  rewrite Hout in Hl2. cbn [snd] in Hl2.
  rewrite Hrun in Hl. cbn [snd trace] in Hl.
  rewrite Hl2, Hl1 in Hl. unfold ready in Hl. cbn [trace] in Hl.
  rewrite Hl0 in Hl. unfold announced in Hl. cbn [trace] in Hl.
  rewrite <- !app_assoc in Hl. apply app_inv_head in Hl. subst l.
  rewrite !sent_orders_app, Hs0, Hs1 in Hs. discriminate Hs.
Qed.

(** A line of the report that is printed only when the answer has the
    field. *)
Definition optional_line (response : pyval) (key fmt : string) : list event :=
  match subscript response key with
  | Return v => [Print fmt [Val v]]
  | Raise _ => []
  end.

Lemma contains_dict_key (d : list (string * pyval)) (key : string) :
  contains (PyDict d) key
  = Return match subscript (PyDict d) key with
           | Return _ => true
           | Raise _ => false
           end.
Proof.
  unfold contains, dict_has, subscript. now destruct (dict_get d key).
Qed.

(** X24: when the order is placed and the answer has the seven fields the
    report needs, [main] ends with status 0 after printing the report: the
    seven fields in the order of the source, the price after the quantity
    and the average price after the executed quantity, each of the two only
    when the answer has the field. *)
Theorem main_reports_order
    args m m2 m3 u response
    (order_id symbol status side type orig_qty executed_qty : pyval) :
  BasicBot_init (arg_api_key args) (arg_api_secret args) (announced m)
  = (Return u, m2) ->
  limit_without_price args = false ->
  place args (ready m2) = (Return response, m3) ->
  subscript response "orderId" = Return order_id ->
  subscript response "symbol" = Return symbol ->
  subscript response "status" = Return status ->
  subscript response "side" = Return side ->
  subscript response "type" = Return type ->
  subscript response "origQty" = Return orig_qty ->
  subscript response "executedQty" = Return executed_qty ->
  main args m
  = (Return 0%Z,
     Machine (world m3)
       (trace m3 ++
          [Print ("\n" ++ str_mul "=" 50) [];
           Print "[SUCCESS] Order Execution Details:" [];
           Print (str_mul "=" 50) [];
           Print "Order ID: {response['orderId']}" [Val order_id];
           Print "Symbol: {response['symbol']}" [Val symbol];
           Print "Status: {response['status']}" [Val status];
           Print "Side: {response['side']}" [Val side];
           Print "Type: {response['type']}" [Val type];
           Print "Quantity: {response['origQty']}" [Val orig_qty]]
          ++ optional_line response "price" "Price: {response['price']}"
          ++ [Print "Executed Qty: {response['executedQty']}" [Val executed_qty]]
          ++ optional_line response "avgPrice" "Avg Price: {response['avgPrice']}"
          ++ [Print (str_mul "=" 50) [];
              Print "Check Binance Testnet for full order details" [];
              Print "https://testnet.binancefuture.com" []])%list).
Proof.
  intros Hinit Hcheck Hplace Hid Hsym Hstatus Hside Htype Hqty Hexec.
  rewrite main_stages, Hinit, Hcheck, Hplace.
  destruct response as [| | | | | |d]; try discriminate Hid.
  assert (Hprice := contains_dict_key d "price").
  assert (Havg := contains_dict_key d "avgPrice").
  unfold optional_line, output_order_details.
  destruct (subscript (PyDict d) "price") as [price|e1] eqn:Eprice;
    destruct (subscript (PyDict d) "avgPrice") as [avg|e2] eqn:Eavg;
    run_machine; rewrite <- ?app_assoc; reflexivity.
Qed.

(** X25: what the parser lets through cannot break the side rule or the
    order type rule, and quantity and price arrive as numbers: for parsed
    arguments, [place_order]'s validation can only fail on the symbol, on a
    quantity or price at or below zero, or on a limit price left out. *)
Theorem parsed_arguments_pass_side_and_type args :
  choices_ok args = true ->
  side_ok (PyStr (arg_side args)) = true
  /\ (upper_strip (PyStr (arg_type args)) = Return "MARKET"
      \/ upper_strip (PyStr (arg_type args)) = Return "LIMIT")
  /\ (forall e,
         validate_order (PyStr (arg_symbol args)) (PyStr (arg_side args))
                        (PyStr (arg_type args)) (PyFloat (arg_quantity args))
                        (price_arg args) = Raise e ->
         e = PyExc ValueError "Symbol must be a USDT-M pair (e.g., BTCUSDT)"
         \/ e = PyExc ValueError "Quantity must be positive"
         \/ e = PyExc ValueError "Price is required for limit orders"
         \/ e = PyExc ValueError "Price must be positive").
Proof.
  destruct args as [sym sd ty q pr key secret].
  unfold choices_ok, price_arg. cbn [arg_side arg_type arg_symbol arg_quantity arg_price].
  intros Hc. apply andb_true_iff in Hc as [Hsd Hty].
  cbn [existsb] in Hsd, Hty.
  rewrite orb_false_r, orb_true_iff, !String.eqb_eq in Hsd, Hty.
  split; [destruct Hsd as [->| ->]; reflexivity|].
  split; [destruct Hty as [->| ->]; [now left|now right]|].
  intros e. unfold validate_order. cbn [upper_strip rbind py_float].
  destruct (Str.endswith (Str.strip (Str.upper sym)) "USDT"); cbn [negb];
    [|intros [= <-]; now left].
  destruct (PrimFloat.leb q 0) eqn:Hq;
    destruct Hsd as [->| ->]; destruct Hty as [->| ->];
    cbn; rewrite ?Hq;
    try (intros [= <-]; tauto); try discriminate;
    destruct pr as [p|]; cbn;
    try (intros [= <-]; tauto);
    destruct (PrimFloat.leb p 0); intros [= <-] || discriminate; tauto.
Qed.

End MainFacts.

(** ** The further properties at concrete inputs *)

(** X1, witness: the limit sell of 0.1 ETHUSDT at 2500. *)
Lemma validated_request_well_formed_witness :
  exists s sd q,
    upper_strip (PyStr "ethusdt") = Return s /\ Str.endswith s "USDT" = true
    /\ upper_strip (PyStr "sell") = Return sd /\ (sd = "BUY" \/ sd = "SELL")
    /\ py_float (PyFloat 0.1) = Return q /\ PrimFloat.leb q 0 = false
    /\ ((upper_strip (PyStr "limit") = Return "MARKET"
         /\ [("symbol", PyStr "ETHUSDT"); ("side", PyStr "SELL");
             ("type", PyStr "LIMIT"); ("quantity", PyFloat 0.1);
             ("price", PyFloat 2500); ("timeInForce", PyStr "GTC")]
            = [("symbol", PyStr s); ("side", PyStr sd);
               ("type", PyStr "MARKET"); ("quantity", PyFloat q)])
        \/ (upper_strip (PyStr "limit") = Return "LIMIT"
            /\ exists p,
                PyInt 2500 <> PyNone /\ py_float (PyInt 2500) = Return p
                /\ PrimFloat.leb p 0 = false
                /\ [("symbol", PyStr "ETHUSDT"); ("side", PyStr "SELL");
                    ("type", PyStr "LIMIT"); ("quantity", PyFloat 0.1);
                    ("price", PyFloat 2500); ("timeInForce", PyStr "GTC")]
                   = [("symbol", PyStr s); ("side", PyStr sd);
                      ("type", PyStr "LIMIT"); ("quantity", PyFloat q);
                      ("price", PyFloat p); ("timeInForce", PyStr "GTC")])).
Proof.
  exact (validated_request_well_formed (P:=Scripted.platform)
           (PyStr "ethusdt") (PyStr "sell") (PyStr "limit") (PyFloat 0.1)
           (PyInt 2500)
           [("symbol", PyStr "ETHUSDT"); ("side", PyStr "SELL");
            ("type", PyStr "LIMIT"); ("quantity", PyFloat 0.1);
            ("price", PyFloat 2500); ("timeInForce", PyStr "GTC")]
           eq_refl).
Defined.

(** X2, witness: the same order is sent with its six fields. *)
Lemma valid_limit_order_is_sent_witness :
  exists s sd q p,
    upper_strip (PyStr "ethusdt") = Return s
    /\ upper_strip (PyStr "sell") = Return sd
    /\ py_float (PyFloat 0.1) = Return q /\ py_float (PyInt 2500) = Return p
    /\ validate_order (PyStr "ethusdt") (PyStr "sell") (PyStr "limit")
                      (PyFloat 0.1) (PyInt 2500)
       = Return [("symbol", PyStr s); ("side", PyStr sd);
                 ("type", PyStr "LIMIT"); ("quantity", PyFloat q);
                 ("price", PyFloat p); ("timeInForce", PyStr "GTC")]
    /\ sent_orders
         (events_since (Scripted.boot [Scripted.filled])
            (snd (place_order (PyStr "ethusdt") (PyStr "sell") (PyStr "limit")
                              (PyFloat 0.1) (PyInt 2500)
                              (Scripted.boot [Scripted.filled]))))
       = [[("symbol", PyStr s); ("side", PyStr sd);
           ("type", PyStr "LIMIT"); ("quantity", PyFloat q);
           ("price", PyFloat p); ("timeInForce", PyStr "GTC")]].
Proof.
  exact (valid_limit_order_is_sent (P:=Scripted.platform)
           (PyStr "ethusdt") (PyStr "sell") (PyStr "limit") (PyFloat 0.1)
           (PyInt 2500) (Scripted.boot [Scripted.filled])
           eq_refl eq_refl eq_refl eq_refl eq_refl).
Defined.

(** X3, witness: a market buy with a price nobody asked for. *)
Lemma valid_market_order_is_sent_witness :
  exists s sd q,
    upper_strip (PyStr "btcusdt") = Return s
    /\ upper_strip (PyStr "buy") = Return sd
    /\ py_float (PyStr "0.001") = Return q
    /\ sent_orders
         (events_since (Scripted.boot [Scripted.filled])
            (snd (place_order (PyStr "btcusdt") (PyStr "buy") (PyStr "market")
                              (PyStr "0.001") (PyStr "cheap")
                              (Scripted.boot [Scripted.filled]))))
       = [[("symbol", PyStr s); ("side", PyStr sd);
           ("type", PyStr "MARKET"); ("quantity", PyFloat q)]].
Proof.
  exact (valid_market_order_is_sent (P:=Scripted.platform)
           (PyStr "btcusdt") (PyStr "buy") (PyStr "market") (PyStr "0.001")
           (PyStr "cheap") (Scripted.boot [Scripted.filled])
           eq_refl eq_refl eq_refl eq_refl).
Defined.

(** X4, witness: a market buy of NaN BTCUSDT. *)
Lemma quantity_check_admits_nan_witness :
  exists s sd,
    sent_orders
      (events_since (Scripted.boot [Scripted.filled])
         (snd (place_order (PyStr "btcusdt") (PyStr "buy") (PyStr "market")
                           (PyFloat nan) PyNone
                           (Scripted.boot [Scripted.filled]))))
    = [[("symbol", PyStr s); ("side", PyStr sd);
        ("type", PyStr "MARKET"); ("quantity", PyFloat nan)]].
Proof.
  exact (quantity_check_admits_nan (P:=Scripted.platform)
           (PyStr "btcusdt") (PyStr "buy") (PyStr "market") PyNone
           (Scripted.boot [Scripted.filled]) nan
           eq_refl eq_refl eq_refl (or_introl eq_refl)).
Defined.

(** X5, witness: the side "hold", with a quantity that would fail next. *)
Lemma place_order_rejects_side_witness :
  place_order (PyStr "btcusdt") (PyStr "hold") (PyStr "market")
              (PyStr "ten") PyNone (Scripted.boot [Scripted.filled])
  = (Raise (PyExc RuntimeError "Order failed: Side must be 'BUY' or 'SELL'"),
     Machine [Scripted.filled]
       [Log ERROR "Order failed: Side must be 'BUY' or 'SELL'" []]).
Proof.
  apply (place_order_rejects_side (P:=Scripted.platform)
           (PyStr "btcusdt") "hold" (PyStr "market") (PyStr "ten")
           PyNone (Scripted.boot [Scripted.filled]));
    [reflexivity | reflexivity | discriminate | discriminate].
Defined.

(** X6, witness: the order type "stop". *)
Lemma place_order_rejects_order_type_witness :
  place_order (PyStr "btcusdt") (PyStr "buy") (PyStr "stop")
              (PyFloat 0.001) PyNone (Scripted.boot [Scripted.filled])
  = (Raise (PyExc RuntimeError "Order failed: Order type must be MARKET or LIMIT"),
     Machine [Scripted.filled]
       [Log ERROR "Order failed: Order type must be MARKET or LIMIT" []]).
Proof.
  apply (place_order_rejects_order_type (P:=Scripted.platform)
           (PyStr "btcusdt") (PyStr "buy") "stop" (PyFloat 0.001)
           PyNone (Scripted.boot [Scripted.filled]));
    [reflexivity | reflexivity | reflexivity | reflexivity
     | discriminate | discriminate].
Defined.

(** X7, witness: the symbol 7. *)
Lemma place_order_rejects_non_text_symbol_witness :
  place_order (PyInt 7) (PyStr "buy") (PyStr "market")
              (PyFloat 0.001) PyNone (Scripted.boot [Scripted.filled])
  = (Raise (PyExc RuntimeError
              "Order failed: 'int' object has no attribute 'upper'"),
     Machine [Scripted.filled]
       [Log ERROR "Order failed: 'int' object has no attribute 'upper'" []]).
Proof.
  apply (place_order_rejects_non_text_symbol (P:=Scripted.platform)
           (PyInt 7) (PyStr "buy") (PyStr "market") (PyFloat 0.001) PyNone
           (Scripted.boot [Scripted.filled])).
  discriminate.
Defined.

(** X8, witness: the quantity "ten". *)
Lemma place_order_rejects_malformed_quantity_witness :
  place_order (PyStr "btcusdt") (PyStr "buy") (PyStr "market")
              (PyStr "ten") PyNone (Scripted.boot [Scripted.filled])
  = (Raise (PyExc RuntimeError
              "Order failed: could not convert string to float: 'ten'"),
     Machine [Scripted.filled]
       [Log ERROR "Order failed: could not convert string to float: 'ten'" []]).
Proof.
  exact (place_order_rejects_malformed_quantity (P:=Scripted.platform)
           (PyStr "btcusdt") (PyStr "buy") (PyStr "market") PyNone "ten"
           (Scripted.boot [Scripted.filled]) eq_refl eq_refl eq_refl eq_refl).
Defined.

(** X9, witness: blanks and a tab around the three words. *)
Lemma validation_ignores_padding_witness :
  validate_order (PyStr ("  " ++ "btcusdt" ++ " "))
                 (PyStr (" " ++ "buy" ++ "  "))
                 (PyStr ("" ++ "market" ++ String (ascii_of_nat 9) ""))
                 (PyFloat 0.001) PyNone
  = validate_order (PyStr "btcusdt") (PyStr "buy") (PyStr "market")
                   (PyFloat 0.001) PyNone.
Proof.
  exact (validation_ignores_padding (P:=Scripted.platform)
           "  " " " " " "  " "" (String (ascii_of_nat 9) "")
           "btcusdt" "buy" "market" (PyFloat 0.001) PyNone
           eq_refl eq_refl eq_refl eq_refl eq_refl eq_refl).
Defined.

(** X10, witness: the exchange fills a market buy. *)
Lemma place_order_returns_answer_witness :
  place_order (PyStr "btcusdt") (PyStr "buy") (PyStr "market")
              (PyFloat 0.001) PyNone (Scripted.boot [Scripted.filled])
  = (Scripted.filled,
     Machine []
       [Log INFO "Placing order: %s"
            [Val (PyDict [("symbol", PyStr "BTCUSDT"); ("side", PyStr "BUY");
                          ("type", PyStr "MARKET"); ("quantity", PyFloat 0.001)])];
        Call (futures_create_order
                [("symbol", PyStr "BTCUSDT"); ("side", PyStr "BUY");
                 ("type", PyStr "MARKET"); ("quantity", PyFloat 0.001)]);
        Log INFO "Order successful: %s"
            [Val (PyDict [("orderId", PyInt 42); ("status", PyStr "NEW")])]]).
Proof.
  exact (place_order_returns_answer (P:=Scripted.platform)
           (PyStr "btcusdt") (PyStr "buy") (PyStr "market") (PyFloat 0.001)
           PyNone
           [("symbol", PyStr "BTCUSDT"); ("side", PyStr "BUY");
            ("type", PyStr "MARKET"); ("quantity", PyFloat 0.001)]
           (PyDict [("orderId", PyInt 42); ("status", PyStr "NEW")])
           (Scripted.boot [Scripted.filled]) [] eq_refl eq_refl).
Defined.

(** X13, witness: the USDT item is second of three; the third is no
    [dict]. *)
Lemma balance_search_stops_at_first_match_witness :
  find_balance
    (PyList ([PyDict [("asset", PyStr "BNB"); ("balance", PyStr "1.5")]]
               ++ PyDict [("asset", PyStr "USDT"); ("balance", PyStr "15000.0")]
               :: [PyInt 0])) "USDT"
  = Return (PyDict [("asset", PyStr "USDT"); ("balance", PyStr "15000.0")])
  /\ truthy (PyDict [("asset", PyStr "USDT"); ("balance", PyStr "15000.0")])
     = true.
Proof.
  apply (balance_search_stops_at_first_match
           [PyDict [("asset", PyStr "BNB"); ("balance", PyStr "1.5")]]
           [PyInt 0]
           (PyDict [("asset", PyStr "USDT"); ("balance", PyStr "15000.0")])
           (PyStr "USDT")).
  - repeat constructor. eexists; split; reflexivity.
  - reflexivity.
  - reflexivity.
Defined.

(** X14, witness: an item without the field [asset] comes first. *)
Lemma balance_search_raises_on_bad_item_witness :
  find_balance
    (PyList ([] ++ PyDict [("balance", PyStr "1.5")]
               :: [PyDict [("asset", PyStr "USDT"); ("balance", PyStr "2")]]))
    "USDT"
  = Raise (PyExc KeyError "'asset'").
Proof.
  apply (balance_search_raises_on_bad_item
           [] [PyDict [("asset", PyStr "USDT"); ("balance", PyStr "2")]]
           (PyDict [("balance", PyStr "1.5")]) (PyExc KeyError "'asset'")).
  - constructor.
  - reflexivity.
Defined.

(** X18, witness: a healthy account with 15000 USDT. *)
Lemma probe_reports_usdt_balance_witness :
  test_connection
    (Scripted.boot [Scripted.pong; Scripted.clock; Scripted.account;
                    Scripted.balances_with_usdt])
  = (Return tt,
     Machine []
       [Call futures_ping;
        Call futures_time;
        Log INFO "API Connection Successful | Ping: %.2fms"
            [Val (PyFloat ((0 - 0) * 1000))];
        Log INFO "Binance Server Time: %s UTC" [Val (PyStr "2024-01-01 00:00:00")];
        Call futures_account;
        Log INFO "Account Status: CanTrade=%s" [Val (PyBool true)];
        Call futures_account_balance;
        Log INFO "Available Balance: %s USDT" [Val (PyStr "15000.0")]]).
Proof.
  apply (probe_reports_usdt_balance (P:=Scripted.platform) []
           [Scripted.pong; Scripted.clock; Scripted.account;
            Scripted.balances_with_usdt]
           [Scripted.pong; Scripted.clock; Scripted.account;
            Scripted.balances_with_usdt]
           [Scripted.clock; Scripted.account; Scripted.balances_with_usdt]
           [Scripted.clock; Scripted.account; Scripted.balances_with_usdt]
           [Scripted.account; Scripted.balances_with_usdt]
           [Scripted.balances_with_usdt]
           [] 0%float 0%float
           (PyDict []) (PyDict [("serverTime", PyInt 1704067200000)])
           (PyInt 1704067200000)
           (PyDict [("canTrade", PyBool true); ("canWithdraw", PyBool true);
                    ("canDeposit", PyBool true)])
           (PyBool true)
           (PyDict [("asset", PyStr "USDT"); ("balance", PyStr "15000.0")])
           (PyStr "USDT") "2024-01-01 00:00:00"
           [PyDict [("asset", PyStr "BNB"); ("balance", PyStr "1.5")]] []);
    try reflexivity.
  repeat constructor. eexists; split; reflexivity.
Defined.

(** X20, witness: nothing answers, so the client's constructor fails. *)
Lemma failed_construction_records_witness :
  events_since (Scripted.boot [])
    (snd (BasicBot_init "key" "secret" (Scripted.boot []))) = []
  \/ (calls (events_since (Scripted.boot [])
               (snd (BasicBot_init "key" "secret" (Scripted.boot []))))
      = [Client "key" "secret" true None]
      /\ logged ERROR
           (events_since (Scripted.boot [])
              (snd (BasicBot_init "key" "secret" (Scripted.boot []))))
         = [Log ERROR "Initialization failed: %s"
                [StrOf (PyExc (OtherException "ConnectionError")
                          "connection refused")]])
  \/ (exists n,
         1 <= n <= 4
         /\ calls (events_since (Scripted.boot [])
                     (snd (BasicBot_init "key" "secret" (Scripted.boot []))))
            = Client "key" "secret" true None :: firstn n probe_sequence
         /\ logged ERROR
              (events_since (Scripted.boot [])
                 (snd (BasicBot_init "key" "secret" (Scripted.boot []))))
            = [probe_error_record
                 (PyExc (OtherException "ConnectionError") "connection refused");
               Log ERROR "Initialization failed: %s"
                   [StrOf (PyExc (OtherException "ConnectionError")
                             "connection refused")]]).
Proof.
  exact (failed_construction_records (P:=Scripted.platform) (H:=Disk.writable)
           "key" "secret" (Scripted.boot [])
           (PyExc (OtherException "ConnectionError") "connection refused")
           eq_refl).
Defined.

(** The three ways a construction fails, one run each. *)
Example construction_failures :
  BasicBot_init (H:=Disk.read_only "/srv/bot") "key" "secret"
                (Scripted.boot [Scripted.pong])
  = (Raise (PyExc (OtherException "PermissionError")
              "[Errno 13] Permission denied: '/srv/bot/trading_bot.log'"),
     Machine [Scripted.pong] [])
  /\ logged ERROR
       (trace (snd (BasicBot_init "key" "secret" (Scripted.boot []))))
     = [Log ERROR "Initialization failed: %s"
            [StrOf (PyExc (OtherException "ConnectionError") "connection refused")]]
  /\ logged ERROR
       (trace (snd (BasicBot_init "key" "secret"
                      (Scripted.boot [Return PyNone; Scripted.invalid_symbol]))))
     = [Log ERROR "API Error: %s - %s"
            [Val (PyInt 400); Val (PyStr "Invalid symbol.")];
        Log ERROR "Initialization failed: %s"
            [StrOf (BinanceAPIException 400 "Invalid symbol.")]].
Proof. repeat split; reflexivity. Qed.

(** X22, witness: a limit sell without a price on a healthy account. *)
Lemma main_refuses_limit_without_price_witness :
  fst (main (Disk.limit_sell None)
         (Scripted.boot (Disk.healthy Disk.order_answer)))
  = Return 1%Z
  /\ sent_orders
       (events_since (Scripted.boot (Disk.healthy Disk.order_answer))
          (snd (main (Disk.limit_sell None)
                  (Scripted.boot (Disk.healthy Disk.order_answer)))))
     = [].
Proof.
  edestruct (main_refuses_limit_without_price
               (P:=Scripted.platform) (H:=Disk.writable)
               (Disk.limit_sell None)
               (Scripted.boot (Disk.healthy Disk.order_answer)))
    as (Hrun & Hsent & _); [reflexivity | reflexivity | reflexivity |].
  split; [exact (f_equal fst Hrun) | exact Hsent].
Defined.

(** X23, witness: the answer to the order has no field [symbol]. *)
Lemma main_fails_after_order_witness :
  fst (main Disk.market_buy (Scripted.boot (Disk.healthy Scripted.filled)))
  = Return 1%Z
  /\ List.length
       (sent_orders
          (events_since (Scripted.boot (Disk.healthy Scripted.filled))
             (snd (main Disk.market_buy
                     (Scripted.boot (Disk.healthy Scripted.filled)))))) = 1.
Proof.
  edestruct (main_fails_after_order
               (P:=Scripted.platform) (H:=Disk.writable)
               Disk.market_buy (Scripted.boot (Disk.healthy Scripted.filled)))
    as (Hrun & Hsent);
    [reflexivity | reflexivity | reflexivity | reflexivity |].
  split; [exact (f_equal fst Hrun) | exact Hsent].
Defined.

(** X24, witness: the market buy is filled and reported; the answer has an
    average price and no price. *)
Lemma main_reports_order_witness :
  fst (main Disk.market_buy (Scripted.boot (Disk.healthy Disk.order_answer)))
  = Return 0%Z
  /\ optional_line
       (PyDict [("orderId", PyInt 42); ("symbol", PyStr "BTCUSDT");
                ("status", PyStr "NEW"); ("side", PyStr "BUY");
                ("type", PyStr "MARKET"); ("origQty", PyStr "0.001");
                ("executedQty", PyStr "0"); ("avgPrice", PyStr "0.00")])
       "price" "Price: {response['price']}" = []
  /\ optional_line
       (PyDict [("orderId", PyInt 42); ("symbol", PyStr "BTCUSDT");
                ("status", PyStr "NEW"); ("side", PyStr "BUY");
                ("type", PyStr "MARKET"); ("origQty", PyStr "0.001");
                ("executedQty", PyStr "0"); ("avgPrice", PyStr "0.00")])
       "avgPrice" "Avg Price: {response['avgPrice']}"
     = [Print "Avg Price: {response['avgPrice']}" [Val (PyStr "0.00")]].
Proof.
  split; [|split; reflexivity].
  erewrite (main_reports_order (P:=Scripted.platform) (H:=Disk.writable)
              Disk.market_buy (Scripted.boot (Disk.healthy Disk.order_answer)));
    reflexivity.
Defined.

(** X25, witness: the arguments of a market buy. *)
Lemma parsed_arguments_pass_side_and_type_witness :
  choices_ok Disk.market_buy = true
  /\ side_ok (PyStr (arg_side Disk.market_buy)) = true.
Proof.
  split; [reflexivity|].
  exact (proj1 (parsed_arguments_pass_side_and_type (P:=Scripted.platform)
                  Disk.market_buy eq_refl)).
Defined.
